(** * run_scheduled_tasks.py: the scheduled task trigger

    A shallow embedding of [load_env_variables], [trigger_scheduled_tasks]
    and [main] of [run_scheduled_tasks.py], with the Python string methods,
    the exception classes and the JSON values they use, followed by the
    properties of the script.

    Conventions of the embedding.
    - A Python [str] is a [string]; each character stands for the code point
      of the same number, so the embedding covers text in U+0000..U+00FF.
      The literal text of log messages is kept as it is written in the
      source file.
    - A [dict] with string keys is a [gmap string _]; assignment to a key is
      [insert], [len] is [size].
    - The process environment, the file system, the remote endpoint and the
      clock are the fields of a [world]; the script reads them and changes
      none of them.
    - The log and the HTTP requests issued are recorded in a [trace], which
      every function threads through ([M], a state and exception monad). *)

From Stdlib Require Import ZArith Ascii String PrimFloat.
From stdpp Require Import gmap strings list fin_maps.

Local Open Scope Z_scope.

(** ** Python string methods *)

Module PyStr.

Definition LF : ascii := "010"%char.
Definition CR : ascii := "013"%char.

(** [str.isspace] on one character, for code points below 256: the
    characters removed by [str.strip()] without argument. *)
Definition is_space (c : ascii) : bool :=
  match c with
  | "009" | "010" | "011" | "012" | "013"
  | "028" | "029" | "030" | "031" | " "
  | "133" | "160" => true
  | _ => false
  end%char.

(** [c in chars], one character at a time. *)
Fixpoint mem (c : ascii) (chars : string) : bool :=
  match chars with
  | EmptyString => false
  | String d chars' => Ascii.eqb c d || mem c chars'
  end.

(** [bool(s)]: a string is true when it is not empty. *)
Definition truthy (s : string) : bool :=
  match s with EmptyString => false | String _ _ => true end.

(** Leading characters satisfying [p] are dropped. *)
Fixpoint lstrip_by (p : ascii -> bool) (s : string) : string :=
  match s with
  | EmptyString => EmptyString
  | String c s' => if p c then lstrip_by p s' else s
  end.

(** Trailing characters satisfying [p] are dropped: a character is kept
    when something is kept after it or when it does not satisfy [p]. *)
Fixpoint rstrip_by (p : ascii -> bool) (s : string) : string :=
  match s with
  | EmptyString => EmptyString
  | String c s' =>
      match rstrip_by p s' with
      | EmptyString => if p c then EmptyString else String c EmptyString
      | String d r => String c (String d r)
      end
  end.

Definition strip_by (p : ascii -> bool) (s : string) : string :=
  rstrip_by p (lstrip_by p s).

(** [s.strip()] *)
Definition strip (s : string) : string := strip_by is_space s.
(** [s.strip(chars)] *)
Definition strip_chars (chars s : string) : string :=
  strip_by (fun c => mem c chars) s.
(** [s.rstrip(chars)] *)
Definition rstrip_chars (chars s : string) : string :=
  rstrip_by (fun c => mem c chars) s.

(** [s.startswith(prefix)] *)
Fixpoint startswith (s prefix : string) {struct prefix} : bool :=
  match prefix, s with
  | EmptyString, _ => true
  | String p prefix', String c s' => Ascii.eqb c p && startswith s' prefix'
  | String _ _, EmptyString => false
  end.

(** [sep in s] for a separator of one character. *)
Definition contains (sep : ascii) (s : string) : bool := mem sep s.

(** [s.split(sep, 1)] for a separator of one character: the text before
    the first separator and the text after it, or [s] alone. *)
Fixpoint split_once (sep : ascii) (s : string) : list string :=
  match s with
  | EmptyString => [EmptyString]
  | String c s' =>
      if Ascii.eqb c sep then [EmptyString; s']
      else match split_once sep s' with
           | [] => []
           | piece :: pieces => String c piece :: pieces
           end
  end.

(** [for line in f] on a file opened in text mode with the default
    [newline=None]: a line ends at LF, CR LF or CR, and its terminator is
    read as LF; a last line without terminator is a line too. *)
Fixpoint readlines (text : string) : list string :=
  match text with
  | EmptyString => []
  | String c rest =>
      if Ascii.eqb c LF then String LF EmptyString :: readlines rest
      else if Ascii.eqb c CR then
        match rest with
        | String c' rest' =>
            if Ascii.eqb c' LF then String LF EmptyString :: readlines rest'
            else String LF EmptyString :: readlines rest
        | EmptyString => [String LF EmptyString]
        end
      else match readlines rest with
           | [] => [String c EmptyString]
           | line :: lines => String c line :: lines
           end
  end.

(** ["=" * n] *)
Fixpoint repeat_str (s : string) (n : nat) : string :=
  match n with
  | O => EmptyString
  | S n' => s +:+ repeat_str s n'
  end.

(** [s.endswith(suffix)] for a suffix of one character. *)
Fixpoint endswith (s : string) (suffix : ascii) : bool :=
  match s with
  | EmptyString => false
  | String c EmptyString => Ascii.eqb c suffix
  | String _ s' => endswith s' suffix
  end.

(** [os.path.join(a, b)] of [posixpath], for a relative [b]. *)
Definition path_join (a b : string) : string :=
  if negb (truthy a) || endswith a "/" then a +:+ b
  else a +:+ "/" +:+ b.

End PyStr.

(** ** Exceptions *)

Module PyExn.

(** The exception classes the script names, and all the others. *)
Inductive pyclass :=
| BaseException
| Exception
| KeyboardInterrupt
| RequestException    (* requests.exceptions.RequestException *)
| Timeout             (* requests.exceptions.Timeout *)
| ConnectionError     (* requests.exceptions.ConnectionError *)
| OtherClass (name : string).

#[global] Instance pyclass_eq_dec : EqDecision pyclass.
Proof. solve_decision. Defined.

(** An exception object: the classes it is an instance of (its class and
    the ancestors of its class) and its message. *)
Record exn := { exn_mro : list pyclass; exn_args : string }.

Definition isinstance (e : exn) (c : pyclass) : bool :=
  bool_decide (c ∈ exn_mro e).

Definition AttributeError (args : string) : exn :=
  {| exn_mro := [OtherClass "AttributeError"; Exception; BaseException];
     exn_args := args |}.
Definition ValueError (args : string) : exn :=
  {| exn_mro := [OtherClass "ValueError"; Exception; BaseException];
     exn_args := args |}.
Definition KeyError (args : string) : exn :=
  {| exn_mro := [OtherClass "KeyError"; OtherClass "LookupError";
                 Exception; BaseException];
     exn_args := args |}.

(** What a call does: it returns a value or raises an exception. *)
Inductive outcome (A : Type) :=
| Return (a : A)
| Raise (e : exn).
Arguments Return {A} a.
Arguments Raise {A} e.

End PyExn.
Export PyExn.

(** ** JSON values, as [response.json()] returns them *)

Module Json.

#[warnings="-register-all"]
Inductive json :=
| JNull                                  (* None *)
| JBool (b : bool)
| JInt (n : Z)
| JFloat (x : float)
| JStr (s : string)
| JList (items : list json)
| JDict (items : list (string * json)).  (* the items of the dict *)

(** [bool(v)] *)
Definition truthy (v : json) : bool :=
  match v with
  | JNull => false
  | JBool b => b
  | JInt n => negb (n =? 0)
  | JFloat x => negb (PrimFloat.eqb x 0%float)
  | JStr s => PyStr.truthy s
  | JList items => match items with [] => false | _ :: _ => true end
  | JDict items => match items with [] => false | _ :: _ => true end
  end.

(** The value stored under [key] in the items of a dict. *)
Fixpoint assoc (key : string) (items : list (string * json)) : option json :=
  match items with
  | [] => None
  | (k, v) :: items' => if String.eqb k key then Some v else assoc key items'
  end.

(** [result.get(key, default)]: only a dict has the method. *)
Definition get (result : json) (key : string) (default : json) : outcome json :=
  match result with
  | JDict items => Return (from_option id default (assoc key items))
  | _ => Raise (AttributeError "object has no attribute 'get'")
  end.

(** [result[key]] with a string key. *)
Definition getitem (result : json) (key : string) : outcome json :=
  match result with
  | JDict items =>
      match assoc key items with
      | Some v => Return v
      | None => Raise (KeyError key)
      end
  | JNull | JBool _ | JInt _ | JFloat _ =>
      Raise {| exn_mro := [OtherClass "TypeError"; Exception; BaseException];
               exn_args := "object is not subscriptable" |}
  | JStr _ | JList _ =>
      Raise {| exn_mro := [OtherClass "TypeError"; Exception; BaseException];
               exn_args := "indices must be integers" |}
  end.

End Json.
Export Json(json(..)).

(** ** The world the script runs in, and what it leaves behind *)

(** The arguments of the one [requests.post] call. *)
Record request := {
  req_url : string;
  req_auth : option string * option string;
  req_timeout : Z;
  req_headers : list (string * string)
}.

(** The response object: [status_code], [text], and what [json()] does. *)
Record response := {
  status_code : Z;
  text : string;
  json_body : outcome json
}.

(** The file at a path: [os.path.exists] is false, or the file is there and
    opening and reading it gives its text or raises. *)
Inductive file_state :=
| Absent
| Present (read : outcome string).

Record world := {
  environ : gmap string string;            (* os.environ *)
  script_dir : string;                     (* os.path.dirname(__file__) *)
  files : string -> file_state;
  remote : request -> outcome response;    (* what requests.post does *)
  now_at_start : string;                   (* datetime.now(), first call *)
  now_at_finish : string                   (* datetime.now(), second call *)
}.

Inductive level := INFO | WARNING | ERROR.

(** A piece of a log message: literal text of the format string, or a
    value formatted into it. *)
Inductive fragment :=
| Lit (s : string)
| FInt (n : Z)
| FStr (s : string)
| FJson (v : json)
| FExn (e : exn).

Record trace := {
  log : list (level * list fragment);
  requests : list request
}.

(** ** The monad of the script: a trace, and exceptions *)

Definition M (A : Type) : Type := trace -> outcome A * trace.

Definition ret {A} (a : A) : M A := fun tr => (Return a, tr).

Definition raise {A} (e : exn) : M A := fun tr => (Raise e, tr).

Definition bind {A B} (c : M A) (k : A -> M B) : M B :=
  fun tr =>
    match c tr with
    | (Return a, tr') => k a tr'
    | (Raise e, tr') => (Raise e, tr')
    end.

Notation "x <- c ;; k" := (bind c (fun x => k))
  (at level 100, c at next level, right associativity).
Notation "c ;;; k" := (bind c (fun _ => k))
  (at level 100, right associativity).

(** The outcome of a call that leaves no trace. *)
Definition lift {A} (o : outcome A) : M A := fun tr => (o, tr).

(** [logger.info], [logger.warning], [logger.error] *)
Definition logger (lvl : level) (message : list fragment) : M unit :=
  fun tr => (Return tt, {| log := log tr ++ [(lvl, message)];
                           requests := requests tr |}).

(** [requests.post(...)]: the call is recorded, the remote answers. *)
Definition requests_post (w : world) (req : request) : M response :=
  fun tr => (remote w req, {| log := log tr;
                              requests := requests tr ++ [req] |}).

(** The [except] clauses of a [try]: the first clause whose class the
    exception is an instance of handles it. *)
Fixpoint dispatch {A} (handlers : list (pyclass * (exn -> M A))) (e : exn)
  : M A :=
  match handlers with
  | [] => raise e
  | (cls, handler) :: handlers' =>
      if isinstance e cls then handler e else dispatch handlers' e
  end.

Definition try_except {A} (body : M A) (handlers : list (pyclass * (exn -> M A)))
  : M A :=
  fun tr =>
    match body tr with
    | (Return a, tr') => (Return a, tr')
    | (Raise e, tr') => dispatch handlers e tr'
    end.

(** [for x in xs: acc = body(acc, x)] *)
Fixpoint for_each {A B} (body : A -> B -> M A) (acc : A) (xs : list B) : M A :=
  match xs with
  | [] => ret acc
  | x :: xs' => acc' <- body acc x ;; for_each body acc' xs'
  end.

(** ** The script *)

Definition required_vars : list string :=
  ["FLASK_APP_URL"; "ADMIN_USERNAME"; "ADMIN_PASSWORD";
   "TELEGRAM_BOT_TOKEN"; "DB_HOST"; "DB_PORT"; "DB_NAME"; "DB_USER";
   "DB_PASSWORD"].

(** [os.getenv(var)] *)
Definition getenv (w : world) (var : string) : option string :=
  environ w !! var.

(** The body of [for var in required_vars]: a variable that is set to a
    non-empty value is stored. *)
Definition collect_var (w : world) (env_vars : gmap string string)
    (var : string) : gmap string string :=
  match getenv w var with
  | Some value =>
      if PyStr.truthy value then <[var := value]> env_vars else env_vars
  | None => env_vars
  end.

(** The argument of the second [strip] of a value: the double quote and
    the single quote. *)
Definition quotes : string := String "034" (String "039" EmptyString).

(** The body of [for line in f]. The unpacking [key, value = ...] raises
    [ValueError] unless the split gives two pieces. *)
Definition parse_line (env_vars : gmap string string) (line : string)
  : M (gmap string string) :=
  let line := PyStr.strip line in
  if PyStr.truthy line && negb (PyStr.startswith line "#")
     && PyStr.contains "=" line
  then
    match PyStr.split_once "=" line with
    | [key; value] =>
        ret (<[PyStr.strip key :=
               PyStr.strip_chars quotes (PyStr.strip value)]> env_vars)
    | _ => raise (ValueError "not enough values to unpack (expected 2, got 1)")
    end
  else ret env_vars.

(** [github_actions = os.getenv('GITHUB_ACTIONS') == 'true'] *)
Definition github_actions (w : world) : bool :=
  bool_decide (getenv w "GITHUB_ACTIONS" = Some "true").

(** [env_file = os.path.join(os.path.dirname(__file__), '.env')] *)
Definition env_file (w : world) : string :=
  PyStr.path_join (script_dir w) ".env".

(** [load_env_variables()]: the mapping, or [None]. *)
Definition load_env_variables (w : world) : M (option (gmap string string)) :=
  if github_actions w then
    logger INFO
      [Lit "Running in GitHub Actions - loading from environment variables"] ;;;
    let env_vars := foldl (collect_var w) ∅ required_vars in
    if bool_decide (3 ≤ size env_vars)%nat then
      logger INFO [Lit "Loaded "; FInt (Z.of_nat (size env_vars));
                   Lit " environment variables from system"] ;;;
      ret (Some env_vars)
    else
      logger ERROR
        [Lit "Missing required environment variables in GitHub Actions"] ;;;
      ret None
  else
    match files w (env_file w) with
    | Absent =>
        logger ERROR [Lit ".env file not found at "; FStr (env_file w)] ;;;
        logger INFO
          [Lit "For GitHub Actions, ensure all secrets are configured"] ;;;
        logger INFO
          [Lit "For local development, copy .env.example to .env and fill in values"] ;;;
        ret None
    | Present read =>
        try_except
          (content <- lift read ;;
           env_vars <- for_each parse_line ∅ (PyStr.readlines content) ;;
           logger INFO [Lit "Loaded "; FInt (Z.of_nat (size env_vars));
                        Lit " environment variables from .env file"] ;;;
           ret (Some env_vars))
          [(Exception, fun e =>
              logger ERROR [Lit "Error reading .env file: "; FExn e] ;;;
              ret None)]
    end.

(** [bool(env_vars)] for a mapping or [None]. *)
Definition truthy_config (env_vars : option (gmap string string)) : bool :=
  match env_vars with
  | Some m => negb (bool_decide (size m = 0%nat))
  | None => false
  end.

(** [bool(v)] for a string or [None]. *)
Definition truthy_value (v : option string) : bool :=
  match v with
  | Some s => PyStr.truthy s
  | None => false
  end.

(** [env_vars.get(key)]: [None] has no such method. *)
Definition config_get (env_vars : option (gmap string string)) (key : string)
  : M (option string) :=
  match env_vars with
  | Some m => ret (m !! key)
  | None => raise (AttributeError "'NoneType' object has no attribute 'get'")
  end.

(** [v.rstrip(chars)]: [None] has no such method. *)
Definition value_rstrip (v : option string) (chars : string) : M string :=
  match v with
  | Some s => ret (PyStr.rstrip_chars chars s)
  | None => raise (AttributeError "'NoneType' object has no attribute 'rstrip'")
  end.

(** The arguments of the call of [requests.post]. *)
Definition post_arguments (endpoint_url : string)
    (admin_username admin_password : option string) : request :=
  {| req_url := endpoint_url;
     req_auth := (admin_username, admin_password);
     req_timeout := 30;
     req_headers := [("Content-Type", "application/json")] |}.

(** [trigger_scheduled_tasks()], the branches on [response.status_code]. *)
Definition check_response (response : response) : M bool :=
  if status_code response =? 200 then
    result <- lift (json_body response) ;;
    logger INFO [Lit "✅ Scheduled tasks executed successfully"] ;;;
    tasks_executed <- lift (Json.get result "tasks_executed" (JInt 0)) ;;
    logger INFO [Lit "📊 Tasks executed: "; FJson tasks_executed] ;;;
    total_due_tasks <- lift (Json.get result "total_due_tasks" (JInt 0)) ;;
    logger INFO [Lit "📋 Total due tasks: "; FJson total_due_tasks] ;;;
    errors <- lift (Json.get result "errors" JNull) ;;
    (if Json.truthy errors then
       errors <- lift (Json.getitem result "errors") ;;
       logger WARNING [Lit "⚠️ Some tasks had errors: "; FJson errors]
     else ret tt) ;;;
    ret true
  else if status_code response =? 401 then
    logger ERROR [Lit "❌ Authentication failed - check ADMIN_USERNAME and ADMIN_PASSWORD"] ;;;
    ret false
  else if status_code response =? 404 then
    logger ERROR [Lit "❌ Endpoint not found - check FLASK_APP_URL"] ;;;
    ret false
  else
    logger ERROR [Lit "❌ HTTP "; FInt (status_code response);
                  Lit ": "; FStr (text response)] ;;;
    ret false.

(** [trigger_scheduled_tasks()], the body of its [try]. *)
Definition trigger_body (w : world) : M bool :=
  env_vars <- load_env_variables w ;;
  if negb (truthy_config env_vars) then
    logger ERROR [Lit "Failed to load environment variables"] ;;;
    ret false
  else
    flask_app_url <- config_get env_vars "FLASK_APP_URL" ;;
    admin_username <- config_get env_vars "ADMIN_USERNAME" ;;
    admin_password <- config_get env_vars "ADMIN_PASSWORD" ;;
    if negb (forallb truthy_value
               [flask_app_url; admin_username; admin_password]) then
      logger ERROR [Lit "Missing required environment variables: FLASK_APP_URL, ADMIN_USERNAME, ADMIN_PASSWORD"] ;;;
      ret false
    else
      base <- value_rstrip flask_app_url "/" ;;
      let endpoint_url := base +:+ "/run_scheduled_tasks" in
      logger INFO [Lit "Triggering scheduled tasks at "; FStr endpoint_url] ;;;
      response <- requests_post w
        (post_arguments endpoint_url admin_username admin_password) ;;
      check_response response.

(** [trigger_scheduled_tasks()], its [except] clauses. *)
Definition trigger_handlers : list (pyclass * (exn -> M bool)) :=
  [(Timeout, fun _ =>
      logger ERROR [Lit "❌ Request timeout - Flask app may be slow or unresponsive"] ;;;
      ret false);
   (ConnectionError, fun _ =>
      logger ERROR [Lit "❌ Connection error - check FLASK_APP_URL and internet connection"] ;;;
      ret false);
   (RequestException, fun e =>
      logger ERROR [Lit "❌ Request error: "; FExn e] ;;;
      ret false);
   (Exception, fun e =>
      logger ERROR [Lit "❌ Unexpected error: "; FExn e] ;;;
      ret false)].

(** [trigger_scheduled_tasks()] *)
Definition trigger_scheduled_tasks (w : world) : M bool :=
  try_except (trigger_body w) trigger_handlers.

(** [main()], the banner at the start and the banner at the end. *)
Definition start_banner (w : world) : M unit :=
  logger INFO [FStr (PyStr.repeat_str "=" 60)] ;;;
  logger INFO [Lit "🚀 Starting scheduled task runner at ";
               FStr (now_at_start w)] ;;;
  logger INFO [FStr (PyStr.repeat_str "=" 60)].

Definition finish_banner (w : world) : M unit :=
  logger INFO [FStr (PyStr.repeat_str "=" 60)] ;;;
  logger INFO [Lit "🏁 Scheduled task runner finished at ";
               FStr (now_at_finish w)] ;;;
  logger INFO [FStr (PyStr.repeat_str "=" 60)].

(** [main()], its [except] clauses. *)
Definition main_handlers : list (pyclass * (exn -> M Z)) :=
  [(KeyboardInterrupt, fun _ =>
      logger INFO [Lit "⏹️ Interrupted by user"] ;;;
      ret 1);
   (Exception, fun e =>
      logger ERROR [Lit "💥 Fatal error: "; FExn e] ;;;
      ret 1)].

(** The body of [main()], for any computation in the place of the call
    [trigger_scheduled_tasks()]. The value returned is the argument of
    [sys.exit], the exit code of the process; an exception raised is one
    that nothing catches. *)
Definition main_body (w : world) (trigger : M bool) : M Z :=
  start_banner w ;;;
  exit_code <-
    try_except
      (success <- trigger ;;
       if success then
         logger INFO [Lit "✅ Scheduled task execution completed successfully"] ;;;
         ret 0
       else
         logger ERROR [Lit "❌ Scheduled task execution failed"] ;;;
         ret 1)
      main_handlers ;;
  finish_banner w ;;;
  ret exit_code.

(** [main()] *)
Definition main (w : world) : M Z :=
  main_body w (trigger_scheduled_tasks w).

(** A run of the script starts with an empty trace. *)
Definition start : trace := {| log := []; requests := [] |}.

(** ** The specification of the [.env] format

    The definitions of this section follow the description of the file
    format, not the code: a line is looked at as it stands in the file. *)

Module DotEnv.

(** Every character of [s] satisfies [p]. *)
Fixpoint all_chars (p : ascii -> bool) (s : string) : bool :=
  match s with
  | EmptyString => true
  | String c s' => p c && all_chars p s'
  end.

(** A blank line holds nothing but white space. *)
Definition is_blank (line : string) : bool :=
  all_chars PyStr.is_space line.

(** A comment line has [#] as its first character that is not white space. *)
Definition is_comment (line : string) : bool :=
  PyStr.startswith (PyStr.lstrip_by PyStr.is_space line) "#".

(** The text of [s] before its first [sep]. *)
Fixpoint before (sep : ascii) (s : string) : string :=
  match s with
  | EmptyString => EmptyString
  | String c s' => if Ascii.eqb c sep then EmptyString
                   else String c (before sep s')
  end.

(** The text of [s] after its first [sep]. *)
Fixpoint after (sep : ascii) (s : string) : string :=
  match s with
  | EmptyString => EmptyString
  | String c s' => if Ascii.eqb c sep then s' else after sep s'
  end.

(** The entry a line stands for: none for a blank line, a comment line or
    a line without [=]; otherwise the key is the trimmed text before the
    first [=] and the value the trimmed text after it, without the quote
    characters around it. *)
Definition entry (line : string) : option (string * string) :=
  if is_blank line || is_comment line || negb (PyStr.contains "=" line)
  then None
  else Some (PyStr.strip (before "=" line),
             PyStr.strip_chars quotes (PyStr.strip (after "=" line))).

(** What a line adds to the mapping, by the description of the format. *)
Definition add_entry (env_vars : gmap string string) (line : string)
  : gmap string string :=
  match entry line with
  | Some (key, value) => <[key := value]> env_vars
  | None => env_vars
  end.

(** The mapping a file stands for: the entries of its lines, a later line
    replacing an earlier one with the same key. *)
Definition mapping (content : string) : gmap string string :=
  list_to_map (reverse (omap entry (PyStr.readlines content))).

End DotEnv.

(** ** The URL, with exactly one slash trimmed *)

(** Exactly one trailing slash is removed, when there is one. *)
Fixpoint trim_one_trailing_slash (s : string) : string :=
  match s with
  | EmptyString => EmptyString
  | String c EmptyString => if Ascii.eqb c "/" then EmptyString else s
  | String c s' => String c (trim_one_trailing_slash s')
  end.

(** ** Worlds derived from a world *)

(** The world with another process environment. *)
Definition with_environ (w : world) (env : gmap string string) : world :=
  {| environ := env; script_dir := script_dir w; files := files w;
     remote := remote w; now_at_start := now_at_start w;
     now_at_finish := now_at_finish w |}.

(** The environment without its variables of empty value. *)
Definition drop_empty (env : gmap string string) : gmap string string :=
  filter (fun kv => kv.2 ≠ EmptyString) env.

(** The variables of [required_vars] that [os.getenv] gives a non-empty
    value for. *)
Definition present_vars (w : world) : list string :=
  filter (fun var => truthy_value (getenv w var) = true) required_vars.

(** ** Outcomes of the POST and of a run *)

(** The outcomes of the POST other than a response of status 200: another
    status code, a timeout, a connection failure, another error of the
    transport, any other exception. *)
Inductive post_failure : outcome response -> Prop :=
| failure_status (r : response) :
    status_code r <> 200 -> post_failure (Return r)
| failure_timeout (e : exn) :
    isinstance e Timeout = true -> post_failure (Raise e)
| failure_connection (e : exn) :
    isinstance e ConnectionError = true -> post_failure (Raise e)
| failure_request (e : exn) :
    isinstance e RequestException = true -> post_failure (Raise e)
| failure_exception (e : exn) :
    isinstance e Exception = true -> post_failure (Raise e).


(** A computation that issues no request. *)
Definition quiet {A} (c : M A) : Prop :=
  forall tr, requests (snd (c tr)) = requests tr.

(** The value of [endpoint_url] for a base URL. *)
Definition endpoint_url (flask_app_url : string) : string :=
  PyStr.rstrip_chars "/" flask_app_url +:+ "/run_scheduled_tasks".

(** The configuration is loaded, from the trace [tr] to the trace [tr1],
    and holds a non-empty base URL, user name and password. *)
Definition configured (w : world) (tr tr1 : trace)
    (url user password : string) : Prop :=
  exists cfg : gmap string string,
    load_env_variables w tr = (Return (Some cfg), tr1)
    /\ cfg !! "FLASK_APP_URL" = Some url
    /\ cfg !! "ADMIN_USERNAME" = Some user
    /\ cfg !! "ADMIN_PASSWORD" = Some password
    /\ PyStr.truthy url = true
    /\ PyStr.truthy user = true
    /\ PyStr.truthy password = true.

(** The trace once the request is issued. *)
Definition posted (tr tr1 : trace) (url user password : string) : trace :=
  {| log := log tr1 ++
       [(INFO, [Lit "Triggering scheduled tasks at "; FStr (endpoint_url url)])];
     requests := requests tr ++
       [post_arguments (endpoint_url url) (Some user) (Some password)] |}.

(** ** Example worlds *)

(** A world with the script in [/app], one [.env] file or none, and a
    remote that gives the same answer to every request. *)
Definition example_world (env : gmap string string) (dotenv : file_state)
    (answer : outcome response) : world :=
  {| environ := env;
     script_dir := "/app";
     files := fun path => if String.eqb path "/app/.env" then dotenv
                          else Absent;
     remote := fun _ => answer;
     now_at_start := "2024-01-01 00:00:00.000000";
     now_at_finish := "2024-01-01 00:00:01.000000" |}.

Definition json_response (status : Z) (body : string) (parsed : outcome json)
  : response :=
  {| status_code := status; text := body; json_body := parsed |}.

(** A response of status 200 that reports counts and errors. *)
Definition ok_response : response :=
  json_response 200 "{...}"
    (Return (JDict [("tasks_executed", JInt 5); ("total_due_tasks", JInt 7);
                    ("errors", JList [JStr "task 3 failed"])])).

(** A response of status 200 whose body is not JSON. *)
Definition html_response : response :=
  json_response 200 "<html>"
    (Raise {| exn_mro := [OtherClass "JSONDecodeError"; OtherClass "InvalidJSONError";
                          RequestException; OtherClass "ValueError";
                          Exception; BaseException];
              exn_args := "Expecting value: line 1 column 1 (char 0)" |}).

Definition connect_timeout : exn :=
  {| exn_mro := [OtherClass "ConnectTimeout"; ConnectionError; Timeout;
                 RequestException; OtherClass "OSError"; Exception;
                 BaseException];
     exn_args := "timed out" |}.

Definition keyboard_interrupt : exn :=
  {| exn_mro := [KeyboardInterrupt; BaseException]; exn_args := EmptyString |}.

(** CI mode with the three essential variables; the base URL ends in two
    slashes. *)
Definition ci_environ : gmap string string :=
  {[ "GITHUB_ACTIONS" := "true"; "FLASK_APP_URL" := "http://h//";
     "ADMIN_USERNAME" := "admin"; "ADMIN_PASSWORD" := "secret" ]}.

(** CI mode with three variables of the database and none of the three
    essential ones. *)
Definition ci_other_environ : gmap string string :=
  {[ "GITHUB_ACTIONS" := "true"; "DB_HOST" := "db"; "DB_PORT" := "5432";
     "DB_NAME" := "bot" ]}.

(** CI mode with the three essential variables, two more that are set to
    the empty string. *)
Definition ci_empty_environ : gmap string string :=
  {[ "GITHUB_ACTIONS" := "true"; "FLASK_APP_URL" := "http://h";
     "ADMIN_USERNAME" := "admin"; "ADMIN_PASSWORD" := "secret";
     "DB_HOST" := EmptyString; "DB_PORT" := EmptyString ]}.

(** A [.env] file with a comment, a blank line, quoted values, and a key
    given twice. *)
Definition dotenv_content : string :=
  "# settings" +:+ String PyStr.LF
  ("   " +:+ String PyStr.LF
  ("FLASK_APP_URL = 'http://h/' " +:+ String PyStr.CR (String PyStr.LF
  ("ADMIN_USERNAME=root" +:+ String PyStr.LF
  ("ADMIN_USERNAME=admin" +:+ String PyStr.LF
  ("  # ADMIN_PASSWORD=old" +:+ String PyStr.LF
  "ADMIN_PASSWORD=s=1")))))).

(** A [.env] file without any entry. *)
Definition dotenv_comments : string :=
  "# nothing here" +:+ String PyStr.LF
  ("  " +:+ String PyStr.LF
  "no equals sign").

(** ** More example worlds *)


(** A response of status 503. *)
Definition unavailable_response : response :=
  json_response 503 "Service Unavailable" (Raise (ValueError "no JSON")).

(** What [open] raises on a file the user may not read. *)
Definition permission_error : exn :=
  {| exn_mro := [OtherClass "PermissionError"; OtherClass "OSError";
                 Exception; BaseException];
     exn_args := "[Errno 13] Permission denied" |}.

(** File mode with a usable [.env] file. *)
Definition dotenv_world (answer : outcome response) : world :=
  example_world ∅ (Present (Return dotenv_content)) answer.

(** What [sys.exit] raises when a library calls it. *)
Definition system_exit : exn :=
  {| exn_mro := [OtherClass "SystemExit"; BaseException];
     exn_args := "2" |}.

(** The text with every line feed turned into carriage return, line
    feed: the same file with the line ends of Windows. *)
Fixpoint to_crlf (content : string) : string :=
  match content with
  | EmptyString => EmptyString
  | String c rest =>
      if Ascii.eqb c PyStr.LF
      then String PyStr.CR (String PyStr.LF (to_crlf rest))
      else String c (to_crlf rest)
  end.

(** A [.env] file with line feeds as line ends. *)
Definition dotenv_unix : string :=
  "FLASK_APP_URL=http://h" +:+ String PyStr.LF
  ("ADMIN_USERNAME=admin" +:+ String PyStr.LF
  ("ADMIN_PASSWORD=secret" +:+ String PyStr.LF EmptyString)).

(** A computation that only adds entries at the end of the log. *)
Definition appends {A} (c : M A) : Prop :=
  forall tr, exists entries, log (snd (c tr)) = log tr ++ entries.

(** * Properties *)

(** ** Strings *)

Section StringFacts.

Import PyStr DotEnv.

Lemma append_nil_l (t : string) : EmptyString +:+ t = t.
Proof. reflexivity. Qed.

Lemma append_cons (c : ascii) (s t : string) :
  String c s +:+ t = String c (s +:+ t).
Proof. reflexivity. Qed.

Variable p : ascii -> bool.

Lemma rstrip_by_nil_iff (s : string) :
  rstrip_by p s = EmptyString <-> all_chars p s = true.
Proof.
  induction s as [|c s IH]; simpl; [done|].
  destruct (rstrip_by p s) as [|d r] eqn:E.
  - destruct (p c); simpl; [tauto|]. split; discriminate.
  - split; [discriminate|]. intros [_ H]%andb_prop.
    apply IH in H. discriminate.
Qed.

Lemma lstrip_by_nil_iff (s : string) :
  lstrip_by p s = EmptyString <-> all_chars p s = true.
Proof.
  induction s as [|c s IH]; simpl; [done|].
  destruct (p c); simpl; [done|]. split; discriminate.
Qed.

(** Trailing characters of [p] are all removed, and nothing else is. *)
Lemma rstrip_by_app (s t : string) :
  all_chars p t = true -> rstrip_by p (s +:+ t) = rstrip_by p s.
Proof.
  intros Ht. induction s as [|c s IH].
  - rewrite append_nil_l. simpl. by apply rstrip_by_nil_iff.
  - rewrite append_cons. simpl. by rewrite IH.
Qed.

Lemma rstrip_by_id (s : string) :
  (forall c, endswith s c = true -> p c = false) -> rstrip_by p s = s.
Proof.
  induction s as [|c s IH]; [done|]. intros H. simpl.
  destruct s as [|d s].
  - simpl. rewrite H; [done|]. simpl. apply Ascii.eqb_refl.
  - rewrite IH; [done|]. intros c' Hc'. by apply H.
Qed.

Lemma lstrip_by_idemp (s : string) :
  lstrip_by p (lstrip_by p s) = lstrip_by p s.
Proof.
  induction s as [|c s IH]; [done|]. simpl.
  destruct (p c) eqn:E; [done|]. simpl. by rewrite E.
Qed.

Lemma rstrip_by_idemp (s : string) :
  rstrip_by p (rstrip_by p s) = rstrip_by p s.
Proof.
  induction s as [|c s IH]; [done|]. simpl.
  destruct (rstrip_by p s) as [|d r] eqn:E.
  - destruct (p c) eqn:Ec; [done|]. simpl. by rewrite Ec.
  - change (rstrip_by p (String c (String d r)))
      with (match rstrip_by p (String d r) with
            | EmptyString => if p c then EmptyString else String c EmptyString
            | String d' r' => String c (String d' r')
            end).
    by rewrite IH.
Qed.

Lemma lstrip_rstrip_comm (s : string) :
  lstrip_by p (rstrip_by p s) = rstrip_by p (lstrip_by p s).
Proof.
  induction s as [|c s IH]; [done|].
  destruct (p c) eqn:Ec.
  - change (lstrip_by p (String c s)) with
      (if p c then lstrip_by p s else String c s).
    rewrite Ec, <- IH. simpl.
    destruct (rstrip_by p s) as [|d r]; rewrite ?Ec; [done|].
    change (lstrip_by p (String c (String d r))) with
      (if p c then lstrip_by p (String d r) else String c (String d r)).
    by rewrite Ec.
  - change (lstrip_by p (String c s)) with
      (if p c then lstrip_by p s else String c s).
    rewrite Ec. simpl.
    destruct (rstrip_by p s) as [|d r]; rewrite ?Ec; simpl; by rewrite Ec.
Qed.

Lemma strip_by_rstrip (s : string) :
  strip_by p (rstrip_by p s) = strip_by p s.
Proof.
  unfold strip_by. by rewrite lstrip_rstrip_comm, rstrip_by_idemp.
Qed.

Lemma strip_by_lstrip (s : string) :
  strip_by p (lstrip_by p s) = strip_by p s.
Proof. unfold strip_by. by rewrite lstrip_by_idemp. Qed.

Lemma truthy_strip_by (s : string) :
  truthy (strip_by p s) = negb (all_chars p s).
Proof.
  unfold strip_by. rewrite <- lstrip_rstrip_comm.
  destruct (all_chars p s) eqn:E.
  - apply rstrip_by_nil_iff in E. by rewrite E.
  - destruct (lstrip_by p (rstrip_by p s)) eqn:E'; [|done].
    apply lstrip_by_nil_iff in E'.
    apply rstrip_by_nil_iff in E'. rewrite rstrip_by_idemp in E'.
    apply rstrip_by_nil_iff in E'. congruence.
Qed.

Lemma mem_rstrip_by (c : ascii) (s : string) :
  p c = false -> mem c (rstrip_by p s) = mem c s.
Proof.
  intros Hc. induction s as [|d s IH]; [done|]. simpl.
  destruct (rstrip_by p s) as [|d' r] eqn:E.
  - simpl in IH. rewrite <- IH, orb_false_r.
    destruct (p d) eqn:Ed; simpl; [|by rewrite orb_false_r].
    symmetry. apply Ascii.eqb_neq. congruence.
  - rewrite <- IH. reflexivity.
Qed.

Lemma mem_lstrip_by (c : ascii) (s : string) :
  p c = false -> mem c (lstrip_by p s) = mem c s.
Proof.
  intros Hc. induction s as [|d s IH]; [done|]. simpl.
  destruct (p d) eqn:Ed; [|done].
  rewrite IH. symmetry.
  replace (Ascii.eqb c d) with false; [done|].
  symmetry. apply Ascii.eqb_neq. congruence.
Qed.

Lemma startswith_rstrip_by (c : ascii) (s : string) :
  p c = false ->
  startswith (rstrip_by p s) (String c EmptyString)
  = startswith s (String c EmptyString).
Proof.
  intros Hc. destruct s as [|d s]; [done|]. simpl.
  destruct (rstrip_by p s) as [|d' r]; [|done].
  destruct (p d) eqn:Ed; simpl; [|done].
  symmetry. rewrite andb_true_r. apply Ascii.eqb_neq. congruence.
Qed.

Lemma split_once_before_after (sep : ascii) (s : string) :
  mem sep s = true -> split_once sep s = [before sep s; after sep s].
Proof.
  induction s as [|c s IH]; [done|]. simpl.
  rewrite (Ascii.eqb_sym sep c).
  destruct (Ascii.eqb c sep); [done|]. simpl. intros H. by rewrite IH.
Qed.

Lemma before_lstrip_by (sep : ascii) (s : string) :
  p sep = false ->
  before sep (lstrip_by p s) = lstrip_by p (before sep s).
Proof.
  intros Hsep. induction s as [|c s IH]; [done|]. simpl.
  destruct (p c) eqn:Ec.
  - replace (Ascii.eqb c sep) with false.
    + simpl. by rewrite Ec.
    + symmetry. apply Ascii.eqb_neq. congruence.
  - simpl. destruct (Ascii.eqb c sep); [done|]. simpl. by rewrite Ec.
Qed.

Lemma after_lstrip_by (sep : ascii) (s : string) :
  p sep = false -> after sep (lstrip_by p s) = after sep s.
Proof.
  intros Hsep. induction s as [|c s IH]; [done|]. simpl.
  destruct (p c) eqn:Ec; [|done].
  replace (Ascii.eqb c sep) with false; [done|].
  symmetry. apply Ascii.eqb_neq. congruence.
Qed.

Lemma before_after_rstrip_by (sep : ascii) (s : string) :
  p sep = false -> mem sep s = true ->
  before sep (rstrip_by p s) = before sep s
  /\ after sep (rstrip_by p s) = rstrip_by p (after sep s).
Proof.
  intros Hsep. induction s as [|c s IH]; [done|]. simpl.
  rewrite (Ascii.eqb_sym sep c).
  destruct (Ascii.eqb c sep) eqn:Ec; simpl.
  - intros _. apply Ascii.eqb_eq in Ec as ->.
    destruct (rstrip_by p s) as [|d r]; rewrite ?Hsep; simpl;
      by rewrite Ascii.eqb_refl.
  - intros Hs. destruct (IH Hs) as [IH1 IH2].
    pose proof (mem_rstrip_by sep s Hsep) as Hm. rewrite Hs in Hm.
    destruct (rstrip_by p s) as [|d r]; [discriminate Hm|].
    simpl. rewrite Ec. split; [by f_equal|done].
Qed.

End StringFacts.

(** ** Reading the [.env] file *)

Section ParseFacts.

Import PyStr DotEnv.

Lemma is_space_hash : is_space "#" = false.
Proof. reflexivity. Qed.

Lemma is_space_equals : is_space "=" = false.
Proof. reflexivity. Qed.

Lemma truthy_strip (line : string) :
  truthy (strip line) = negb (is_blank line).
Proof. apply truthy_strip_by. Qed.

Lemma startswith_strip_hash (line : string) :
  startswith (strip line) "#" = is_comment line.
Proof. apply startswith_rstrip_by, is_space_hash. Qed.

Lemma contains_strip (line : string) :
  contains "=" (strip line) = contains "=" line.
Proof.
  unfold contains, strip, strip_by.
  rewrite mem_rstrip_by by apply is_space_equals.
  apply mem_lstrip_by, is_space_equals.
Qed.

Lemma strip_before_strip (line : string) :
  contains "=" line = true ->
  strip (before "=" (strip line)) = strip (before "=" line).
Proof.
  intros H. unfold strip at 2. unfold strip_by.
  destruct (before_after_rstrip_by is_space "=" (lstrip_by is_space line))
    as [-> _]; [apply is_space_equals| |].
  - rewrite mem_lstrip_by by apply is_space_equals. exact H.
  - rewrite before_lstrip_by by apply is_space_equals.
    apply strip_by_lstrip.
Qed.

Lemma strip_after_strip (line : string) :
  contains "=" line = true ->
  strip (after "=" (strip line)) = strip (after "=" line).
Proof.
  intros H. unfold strip at 2. unfold strip_by.
  destruct (before_after_rstrip_by is_space "=" (lstrip_by is_space line))
    as [_ ->]; [apply is_space_equals| |].
  - rewrite mem_lstrip_by by apply is_space_equals. exact H.
  - rewrite after_lstrip_by by apply is_space_equals.
    apply strip_by_rstrip.
Qed.

(** The body of the loop over the lines does what the format says, raises
    nothing and leaves no trace. *)
Lemma parse_line_entry (env_vars : gmap string string) (line : string)
    (tr : trace) :
  parse_line env_vars line tr = (Return (add_entry env_vars line), tr).
Proof.
  unfold parse_line, add_entry, entry.
  rewrite truthy_strip, startswith_strip_hash, contains_strip.
  destruct (is_blank line), (is_comment line),
    (contains "=" line) eqn:Heq; simpl; try reflexivity.
  rewrite split_once_before_after
    by (etrans; [apply contains_strip | exact Heq]).
  by rewrite strip_before_strip, strip_after_strip.
Qed.

Lemma for_each_parse_line (lines : list string)
    (env_vars : gmap string string) (tr : trace) :
  for_each parse_line env_vars lines tr
  = (Return (foldl add_entry env_vars lines), tr).
Proof.
  revert env_vars. induction lines as [|line lines IH]; intros env_vars.
  - reflexivity.
  - simpl. unfold bind. rewrite parse_line_entry. apply IH.
Qed.

Lemma foldl_add_entry (lines : list string) (env_vars : gmap string string) :
  foldl add_entry env_vars lines
  = list_to_map (reverse (omap entry lines)) ∪ env_vars.
Proof.
  revert env_vars. induction lines as [|line lines IH]; intros env_vars.
  - simpl. by rewrite (left_id_L ∅ (∪)).
  - simpl. rewrite IH. unfold add_entry.
    destruct (entry line) as [[key value]|]; [|done].
    rewrite reverse_cons, list_to_map_app. simpl.
    rewrite insert_empty, <- (assoc_L (∪)).
    by rewrite <- insert_union_singleton_l.
Qed.

Lemma foldl_add_entry_mapping (content : string) :
  foldl add_entry ∅ (readlines content) = mapping content.
Proof.
  rewrite foldl_add_entry. unfold mapping. by rewrite (right_id_L ∅ (∪)).
Qed.

End ParseFacts.

(** ** The trace *)

Section TraceFacts.

Lemma quiet_ret {A} (a : A) : quiet (ret a).
Proof. by intros tr. Qed.

Lemma quiet_raise {A} (e : exn) : quiet (@raise A e).
Proof. by intros tr. Qed.

Lemma quiet_lift {A} (o : outcome A) : quiet (lift o).
Proof. by intros tr. Qed.

Lemma quiet_logger (lvl : level) (message : list fragment) :
  quiet (logger lvl message).
Proof. by intros tr. Qed.

Lemma quiet_bind {A B} (c : M A) (k : A -> M B) :
  quiet c -> (forall a, quiet (k a)) -> quiet (bind c k).
Proof.
  intros Hc Hk tr. unfold bind. specialize (Hc tr).
  destruct (c tr) as [[a|e] tr']; simpl in *; [|done].
  by rewrite Hk.
Qed.

Lemma quiet_dispatch {A} (handlers : list (pyclass * (exn -> M A))) (e : exn) :
  Forall (fun h => forall e', quiet (h.2 e')) handlers ->
  quiet (dispatch handlers e).
Proof.
  induction 1 as [|[cls h] handlers Hh _ IH]; simpl.
  - apply quiet_raise.
  - destruct (isinstance e cls); [apply Hh|apply IH].
Qed.

Lemma quiet_try_except {A} (body : M A)
    (handlers : list (pyclass * (exn -> M A))) :
  quiet body ->
  Forall (fun h => forall e', quiet (h.2 e')) handlers ->
  quiet (try_except body handlers).
Proof.
  intros Hb Hh tr. unfold try_except. specialize (Hb tr).
  destruct (body tr) as [[a|e] tr']; simpl in *; [done|].
  by rewrite quiet_dispatch.
Qed.

Lemma quiet_if {A} (b : bool) (c1 c2 : M A) :
  quiet c1 -> quiet c2 -> quiet (if b then c1 else c2).
Proof. by destruct b. Qed.

Lemma quiet_for_each {A B} (body : A -> B -> M A) (xs : list B) (acc : A) :
  (forall a x, quiet (body a x)) -> quiet (for_each body acc xs).
Proof.
  intros Hbody. revert acc.
  induction xs as [|x xs IH]; intros acc; simpl.
  - apply quiet_ret.
  - apply quiet_bind; [apply Hbody|apply IH].
Qed.

End TraceFacts.

Create HintDb quiet.
#[export] Hint Resolve quiet_ret quiet_raise quiet_lift quiet_logger
  quiet_bind quiet_if quiet_try_except quiet_for_each : quiet.

Lemma parse_line_quiet (env_vars : gmap string string) (line : string) :
  quiet (parse_line env_vars line).
Proof. intros tr. by rewrite parse_line_entry. Qed.

Lemma load_env_variables_quiet (w : world) : quiet (load_env_variables w).
Proof.
  unfold load_env_variables.
  apply quiet_if.
  - apply quiet_bind; [apply quiet_logger|intros _].
    apply quiet_if; apply quiet_bind; auto with quiet.
  - destruct (files w (env_file w)) as [|read].
    + repeat (apply quiet_bind; [apply quiet_logger|intros _]).
      apply quiet_ret.
    + apply quiet_try_except.
      * apply quiet_bind; [apply quiet_lift|intros content].
        apply quiet_bind;
          [apply quiet_for_each; intros; apply parse_line_quiet|intros m].
        auto with quiet.
      * by repeat constructor.
Qed.

Lemma check_response_quiet (r : response) : quiet (check_response r).
Proof.
  unfold check_response.
  repeat first
    [ apply quiet_if
    | apply quiet_bind; [|intros ?]
    | apply quiet_lift | apply quiet_logger | apply quiet_ret ].
Qed.

Lemma trigger_handlers_quiet (e : exn) : quiet (dispatch trigger_handlers e).
Proof.
  apply quiet_dispatch. unfold trigger_handlers.
  by repeat constructor.
Qed.

(** ** Loading the configuration *)

Lemma load_env_variables_ci (w : world) (tr : trace) :
  github_actions w = true ->
  load_env_variables w tr =
    let env_vars := foldl (collect_var w) ∅ required_vars in
    if bool_decide (3 ≤ size env_vars)%nat then
      (Return (Some env_vars),
       {| log := log tr ++
            [(INFO, [Lit "Running in GitHub Actions - loading from environment variables"]);
             (INFO, [Lit "Loaded "; FInt (Z.of_nat (size env_vars));
                     Lit " environment variables from system"])];
          requests := requests tr |})
    else
      (Return None,
       {| log := log tr ++
            [(INFO, [Lit "Running in GitHub Actions - loading from environment variables"]);
             (ERROR, [Lit "Missing required environment variables in GitHub Actions"])];
          requests := requests tr |}).
Proof.
  intros Hci. unfold load_env_variables. rewrite Hci.
  remember (foldl (collect_var w) ∅ required_vars) as env_vars.
  unfold bind, logger, ret. simpl.
  case_bool_decide; simpl; by rewrite <- app_assoc.
Qed.

Lemma load_env_variables_file (w : world) (tr : trace) (content : string) :
  github_actions w = false ->
  files w (env_file w) = Present (Return content) ->
  load_env_variables w tr =
    (Return (Some (DotEnv.mapping content)),
     {| log := log tr ++
          [(INFO, [Lit "Loaded ";
                   FInt (Z.of_nat (size (DotEnv.mapping content)));
                   Lit " environment variables from .env file"])];
        requests := requests tr |}).
Proof.
  intros Hci Hfile. unfold load_env_variables. rewrite Hci, Hfile.
  unfold try_except, bind, lift.
  rewrite for_each_parse_line, foldl_add_entry_mapping.
  reflexivity.
Qed.

Lemma load_env_variables_absent (w : world) (tr : trace) :
  github_actions w = false ->
  files w (env_file w) = Absent ->
  fst (load_env_variables w tr) = Return None.
Proof.
  intros Hci Hfile. unfold load_env_variables. by rewrite Hci, Hfile.
Qed.

Lemma load_env_variables_unreadable (w : world) (tr : trace) (e : exn) :
  github_actions w = false ->
  files w (env_file w) = Present (Raise e) ->
  isinstance e Exception = true ->
  fst (load_env_variables w tr) = Return None.
Proof.
  intros Hci Hfile He. unfold load_env_variables. rewrite Hci, Hfile.
  unfold try_except, bind, lift. simpl. by rewrite He.
Qed.

Lemma omap_all_None {A B} (f : A -> option B) (xs : list A) :
  Forall (fun x => f x = None) xs -> omap f xs = [].
Proof.
  induction 1 as [|x xs Hx _ IH]; [done|]. simpl. by rewrite Hx.
Qed.

Lemma mapping_no_entry (content : string) :
  Forall (fun line => DotEnv.entry line = None) (PyStr.readlines content) ->
  DotEnv.mapping content = ∅.
Proof.
  intros H. unfold DotEnv.mapping. by rewrite omap_all_None.
Qed.

(** ** The checks of the configuration *)

Lemma truthy_config_lookup (cfg : gmap string string) (key value : string) :
  cfg !! key = Some value -> truthy_config (Some cfg) = true.
Proof.
  intros Hk. simpl. case_bool_decide as Hsize; [|done].
  apply map_size_empty_iff in Hsize. subst cfg.
  by rewrite lookup_empty in Hk.
Qed.

Lemma trigger_config_falsy (w : world) (tr tr1 : trace)
    (env_vars : option (gmap string string)) :
  load_env_variables w tr = (Return env_vars, tr1) ->
  truthy_config env_vars = false ->
  trigger_scheduled_tasks w tr =
    (Return false,
     {| log := log tr1 ++ [(ERROR, [Lit "Failed to load environment variables"])];
        requests := requests tr1 |}).
Proof.
  intros Hload Hfalsy.
  unfold trigger_scheduled_tasks, try_except, trigger_body, bind.
  by rewrite Hload, Hfalsy.
Qed.

Lemma trigger_config_missing (w : world) (tr tr1 : trace)
    (cfg : gmap string string) :
  load_env_variables w tr = (Return (Some cfg), tr1) ->
  truthy_config (Some cfg) = true ->
  forallb truthy_value
    [cfg !! "FLASK_APP_URL"; cfg !! "ADMIN_USERNAME"; cfg !! "ADMIN_PASSWORD"]
  = false ->
  trigger_scheduled_tasks w tr =
    (Return false,
     {| log := log tr1 ++ [(ERROR, [Lit "Missing required environment variables: FLASK_APP_URL, ADMIN_USERNAME, ADMIN_PASSWORD"])];
        requests := requests tr1 |}).
Proof.
  intros Hload Htruthy Hmissing.
  unfold trigger_scheduled_tasks, try_except, trigger_body, bind.
  rewrite Hload, Htruthy. unfold config_get, ret. simpl negb. cbv iota.
  by rewrite Hmissing.
Qed.

(** What [trigger_scheduled_tasks] does when a key of the configuration is
    absent or empty: one of the two messages, failure, no request. *)
Lemma trigger_config_unusable (w : world) (tr tr1 : trace)
    (env_vars : option (gmap string string)) :
  load_env_variables w tr = (Return env_vars, tr1) ->
  (forall cfg, env_vars = Some cfg ->
     forallb truthy_value
       [cfg !! "FLASK_APP_URL"; cfg !! "ADMIN_USERNAME"; cfg !! "ADMIN_PASSWORD"]
     = false) ->
  exists message,
    trigger_scheduled_tasks w tr =
      (Return false,
       {| log := log tr1 ++ [(ERROR, message)]; requests := requests tr |}).
Proof.
  intros Hload Hmissing.
  pose proof (load_env_variables_quiet w tr) as Hq.
  rewrite Hload in Hq. simpl in Hq. rewrite <- Hq.
  destruct (truthy_config env_vars) eqn:Htruthy.
  - destruct env_vars as [cfg|]; [|done].
    eexists. eapply trigger_config_missing; eauto.
  - eexists. by eapply trigger_config_falsy.
Qed.

(** ** The answer of the remote *)

Lemma trigger_handlers_catch (e : exn) (tr : trace) :
  isinstance e Timeout = true \/ isinstance e ConnectionError = true \/
  isinstance e RequestException = true \/ isinstance e Exception = true ->
  exists message,
    dispatch trigger_handlers e tr =
      (Return false,
       {| log := log tr ++ [(ERROR, message)]; requests := requests tr |}).
Proof.
  intros H. unfold trigger_handlers. simpl.
  destruct (isinstance e Timeout); [by eexists|].
  destruct (isinstance e ConnectionError); [by eexists|].
  destruct (isinstance e RequestException); [by eexists|].
  destruct (isinstance e Exception); [by eexists|].
  by destruct H as [?|[?|[?|?]]].
Qed.

Lemma check_response_not_200 (r : response) (tr : trace) :
  status_code r <> 200 ->
  exists message,
    check_response r tr =
      (Return false,
       {| log := log tr ++ [(ERROR, message)]; requests := requests tr |}).
Proof.
  intros Hstatus. unfold check_response.
  destruct (Z.eqb_spec (status_code r) 200) as [|_]; [done|].
  destruct (status_code r =? 401); [by eexists|].
  destruct (status_code r =? 404); by eexists.
Qed.

Lemma check_response_json_raises (r : response) (e : exn) (tr : trace) :
  status_code r = 200 ->
  json_body r = Raise e ->
  check_response r tr = (Raise e, tr).
Proof.
  intros Hstatus Hjson. unfold check_response, bind, lift.
  by rewrite Hstatus, Hjson.
Qed.

Lemma check_response_dict (r : response) (items : list (string * json))
    (tr : trace) :
  status_code r = 200 ->
  json_body r = Return (JDict items) ->
  check_response r tr =
    (Return true,
     {| log := log tr ++
          [(INFO, [Lit "✅ Scheduled tasks executed successfully"]);
           (INFO, [Lit "📊 Tasks executed: ";
                   FJson (from_option id (JInt 0)
                            (Json.assoc "tasks_executed" items))]);
           (INFO, [Lit "📋 Total due tasks: ";
                   FJson (from_option id (JInt 0)
                            (Json.assoc "total_due_tasks" items))])] ++
          (if Json.truthy (from_option id JNull (Json.assoc "errors" items))
           then [(WARNING, [Lit "⚠️ Some tasks had errors: ";
                            FJson (from_option id JNull
                                     (Json.assoc "errors" items))])]
           else []);
        requests := requests tr |}).
Proof.
  intros Hstatus Hjson. unfold check_response.
  rewrite Hstatus, Hjson. unfold bind, lift, logger, ret. simpl.
  destruct (Json.truthy (from_option id JNull (Json.assoc "errors" items)))
    eqn:Herrors; simpl.
  - destruct (Json.assoc "errors" items) as [errors|]; [|done]. simpl.
    by rewrite <- !app_assoc.
  - by rewrite <- ?app_assoc, ?app_nil_r.
Qed.

Section Configured.

Variables (w : world) (tr tr1 : trace) (url user password : string).

Hypothesis Hconfigured : configured w tr tr1 url user password.

(** With a usable configuration the request is issued, and the rest is
    up to the answer. *)
Lemma trigger_configured :
  trigger_scheduled_tasks w tr =
    match remote w (post_arguments (endpoint_url url) (Some user)
                      (Some password)) with
    | Return response =>
        try_except (check_response response) trigger_handlers
          (posted tr tr1 url user password)
    | Raise e => dispatch trigger_handlers e (posted tr tr1 url user password)
    end.
Proof using Hconfigured.
  destruct Hconfigured
    as (cfg & Hload & Hurl & Huser & Hpassword & Turl & Tuser & Tpassword).
  assert (requests tr1 = requests tr) as Hrequests.
  { pose proof (load_env_variables_quiet w tr) as Hq. by rewrite Hload in Hq. }
  unfold trigger_scheduled_tasks, try_except, trigger_body.
  cbv [bind]. rewrite Hload.
  rewrite (truthy_config_lookup _ _ _ Hurl).
  cbv [negb config_get ret]. rewrite Hurl, Huser, Hpassword.
  cbv [forallb truthy_value]. rewrite Turl, Tuser, Tpassword.
  cbv [andb negb value_rstrip ret logger requests_post]. cbn [log requests].
  rewrite Hrequests. fold (endpoint_url url).
  fold (posted tr tr1 url user password).
  destruct (remote w _) as [response|e]; [|done].
  by destruct (check_response response _) as [[]].
Qed.

Lemma trigger_configured_requests :
  requests (snd (trigger_scheduled_tasks w tr)) =
    requests tr ++
    [post_arguments (endpoint_url url) (Some user) (Some password)].
Proof using Hconfigured.
  rewrite trigger_configured.
  destruct (remote w _) as [response|e].
  - rewrite quiet_try_except; [done|apply check_response_quiet|].
    by repeat constructor.
  - by rewrite trigger_handlers_quiet.
Qed.

End Configured.

Lemma configured_example (env : gmap string string) (answer : outcome response)
    (cfg : gmap string string) (tr1 : trace) (url user password : string) :
  load_env_variables (example_world env Absent answer) start
    = (Return (Some cfg), tr1) ->
  cfg !! "FLASK_APP_URL" = Some url ->
  cfg !! "ADMIN_USERNAME" = Some user ->
  cfg !! "ADMIN_PASSWORD" = Some password ->
  PyStr.truthy url && PyStr.truthy user && PyStr.truthy password = true ->
  configured (example_world env Absent answer) start tr1 url user password.
Proof.
  intros Hload Hurl Huser Hpassword
    [[Turl Tuser]%andb_prop Tpassword]%andb_prop.
  by exists cfg.
Defined.

(** ** C4: every outcome of the POST other than status 200 is a failure *)

(** C4. With a usable configuration, when the POST gives anything but a
    response of status 200 (a response of another status, whatever its
    body, a timeout, a connection failure, another error of the transport
    or any other exception), [trigger_scheduled_tasks] returns [False],
    after one error message. *)
Theorem trigger_fails_on_post_failure (w : world) (tr tr1 : trace)
    (url user password : string) :
  configured w tr tr1 url user password ->
  post_failure (remote w (post_arguments (endpoint_url url) (Some user)
                            (Some password))) ->
  exists message,
    trigger_scheduled_tasks w tr =
      (Return false,
       {| log := log (posted tr tr1 url user password) ++ [(ERROR, message)];
          requests := requests (posted tr tr1 url user password) |}).
Proof.
  intros Hconfigured Hfailure.
  rewrite (trigger_configured _ _ _ _ _ _ Hconfigured).
  inversion Hfailure as [r Hstatus Heq|e He Heq|e He Heq|e He Heq|e He Heq].
  - destruct (check_response_not_200 r (posted tr tr1 url user password) Hstatus)
      as [message Hcheck].
    exists message. unfold try_except. by rewrite Hcheck.
  - apply trigger_handlers_catch; auto.
  - apply trigger_handlers_catch; auto.
  - apply trigger_handlers_catch; auto.
  - apply trigger_handlers_catch; auto.
Qed.

Lemma trigger_fails_on_post_failure_witness :
  exists message,
    trigger_scheduled_tasks
      (example_world ci_environ Absent (Raise connect_timeout)) start =
      (Return false,
       {| log :=
            log (posted start
                   (snd (load_env_variables
                           (example_world ci_environ Absent
                              (Raise connect_timeout)) start))
                   "http://h//" "admin" "secret") ++ [(ERROR, message)];
          requests :=
            [post_arguments "http://h/run_scheduled_tasks" (Some "admin")
               (Some "secret")] |}).
Proof.
  apply (trigger_fails_on_post_failure
           (example_world ci_environ Absent (Raise connect_timeout))
           start _ "http://h//" "admin" "secret").
  - eapply configured_example; [vm_compute; reflexivity|reflexivity..].
  - apply failure_timeout. reflexivity.
Defined.

(** ** C5: a response of status 200 with a JSON object is a success *)

(** C5. With a usable configuration, when the POST gives a response of
    status 200 whose body is a JSON object, [trigger_scheduled_tasks]
    returns [True]. It logs [tasks_executed] and [total_due_tasks], each
    with 0 in the place of an absent key, and a warning exactly when the
    value of [errors] is true in the sense of Python; a list of errors
    that is present and not empty is logged as a warning. *)
Theorem trigger_succeeds_on_json_object (w : world) (tr tr1 : trace)
    (url user password : string) (r : response)
    (items : list (string * json)) :
  configured w tr tr1 url user password ->
  remote w (post_arguments (endpoint_url url) (Some user) (Some password))
    = Return r ->
  status_code r = 200 ->
  json_body r = Return (JDict items) ->
  trigger_scheduled_tasks w tr =
    (Return true,
     {| log := log (posted tr tr1 url user password) ++
          [(INFO, [Lit "✅ Scheduled tasks executed successfully"]);
           (INFO, [Lit "📊 Tasks executed: ";
                   FJson (from_option id (JInt 0)
                            (Json.assoc "tasks_executed" items))]);
           (INFO, [Lit "📋 Total due tasks: ";
                   FJson (from_option id (JInt 0)
                            (Json.assoc "total_due_tasks" items))])] ++
          (if Json.truthy (from_option id JNull (Json.assoc "errors" items))
           then [(WARNING, [Lit "⚠️ Some tasks had errors: ";
                            FJson (from_option id JNull
                                     (Json.assoc "errors" items))])]
           else []);
        requests := requests (posted tr tr1 url user password) |})
  /\ (forall (error : json) (errors : list json),
        Json.assoc "errors" items = Some (JList (error :: errors)) ->
        (WARNING, [Lit "⚠️ Some tasks had errors: ";
                   FJson (JList (error :: errors))])
          ∈ log (snd (trigger_scheduled_tasks w tr))).
Proof.
  intros Hconfigured Hremote Hstatus Hjson.
  assert (trigger_scheduled_tasks w tr =
            check_response r (posted tr tr1 url user password)) as Hrun.
  { rewrite (trigger_configured _ _ _ _ _ _ Hconfigured), Hremote.
    unfold try_except.
    by rewrite (check_response_dict r items _ Hstatus Hjson). }
  rewrite Hrun, (check_response_dict r items _ Hstatus Hjson).
  split; [reflexivity|].
  intros error errors Herrors. rewrite Herrors. cbn [snd log].
  rewrite !elem_of_app. right. right. simpl. apply list_elem_of_here.
Qed.

Lemma trigger_succeeds_on_json_object_witness :
  fst (trigger_scheduled_tasks
         (example_world ci_environ Absent (Return ok_response)) start)
    = Return true
  /\ (WARNING, [Lit "⚠️ Some tasks had errors: ";
                FJson (JList [JStr "task 3 failed"])])
       ∈ log (snd (trigger_scheduled_tasks
                     (example_world ci_environ Absent (Return ok_response))
                     start)).
Proof.
  destruct (trigger_succeeds_on_json_object
              (example_world ci_environ Absent (Return ok_response))
              start
              (snd (load_env_variables
                      (example_world ci_environ Absent (Return ok_response))
                      start))
              "http://h//" "admin" "secret" ok_response
              [("tasks_executed", JInt 5); ("total_due_tasks", JInt 7);
               ("errors", JList [JStr "task 3 failed"])])
    as [Hrun Hwarning].
  - eapply configured_example; [vm_compute; reflexivity|reflexivity..].
  - reflexivity.
  - reflexivity.
  - reflexivity.
  - split; [by rewrite Hrun|]. by apply Hwarning.
Defined.

(** ** C8: a response of status 200 that is not JSON is a failure *)

(** C8. With a usable configuration, when the POST gives a response of
    status 200 and [response.json()] raises (a decoding error is an
    exception of class [Exception]), [trigger_scheduled_tasks] returns
    [False]: the handlers around the call catch the exception, and the
    log holds one error message and no message of success. *)
Theorem trigger_fails_on_unparseable_body (w : world) (tr tr1 : trace)
    (url user password : string) (r : response) (e : exn) :
  configured w tr tr1 url user password ->
  remote w (post_arguments (endpoint_url url) (Some user) (Some password))
    = Return r ->
  status_code r = 200 ->
  json_body r = Raise e ->
  isinstance e Exception = true ->
  exists message,
    trigger_scheduled_tasks w tr =
      (Return false,
       {| log := log (posted tr tr1 url user password) ++ [(ERROR, message)];
          requests := requests (posted tr tr1 url user password) |}).
Proof.
  intros Hconfigured Hremote Hstatus Hjson He.
  rewrite (trigger_configured _ _ _ _ _ _ Hconfigured), Hremote.
  unfold try_except.
  rewrite (check_response_json_raises r e _ Hstatus Hjson).
  apply trigger_handlers_catch. auto.
Qed.

Lemma trigger_fails_on_unparseable_body_witness :
  exists message,
    trigger_scheduled_tasks
      (example_world ci_environ Absent (Return html_response)) start =
      (Return false,
       {| log :=
            log (posted start
                   (snd (load_env_variables
                           (example_world ci_environ Absent
                              (Return html_response)) start))
                   "http://h//" "admin" "secret") ++ [(ERROR, message)];
          requests :=
            [post_arguments "http://h/run_scheduled_tasks" (Some "admin")
               (Some "secret")] |}).
Proof.
  eapply (trigger_fails_on_unparseable_body
            (example_world ci_environ Absent (Return html_response))
            start _ "http://h//" "admin" "secret" html_response).
  - eapply configured_example; [vm_compute; reflexivity|reflexivity..].
  - reflexivity.
  - reflexivity.
  - reflexivity.
  - reflexivity.
Defined.

(** ** C2: the URL of the request *)

Lemma all_slashes (n : nat) :
  DotEnv.all_chars (fun c => PyStr.mem c "/") (PyStr.repeat_str "/" n) = true.
Proof. induction n as [|n IH]; [done|]. simpl. exact IH. Qed.

Lemma endswith_slash (s : string) (c : ascii) :
  PyStr.endswith s "/" = false -> PyStr.endswith s c = true ->
  PyStr.mem c "/" = false.
Proof.
  intros Hs Hc. simpl. rewrite orb_false_r.
  apply Ascii.eqb_neq. intros ->. congruence.
Qed.

Lemma endpoint_url_slashes (base : string) (n : nat) :
  PyStr.endswith base "/" = false ->
  endpoint_url (base +:+ PyStr.repeat_str "/" n)
  = base +:+ "/run_scheduled_tasks".
Proof.
  intros Hbase. unfold endpoint_url, PyStr.rstrip_chars.
  rewrite rstrip_by_app by apply all_slashes.
  rewrite rstrip_by_id; [done|]. intros c. by apply endswith_slash.
Qed.

(** C2, as the code has it. With a usable configuration whose base URL is
    [base] followed by any number of slashes, [base] not ending in a
    slash, the one request goes to [base] followed by
    [/run_scheduled_tasks]: every trailing slash is removed, not one. *)
Theorem endpoint_url_strips_every_slash (w : world) (tr tr1 : trace)
    (base user password : string) (n : nat) :
  PyStr.endswith base "/" = false ->
  configured w tr tr1 (base +:+ PyStr.repeat_str "/" n) user password ->
  requests (snd (trigger_scheduled_tasks w tr)) =
    requests tr ++
    [post_arguments (base +:+ "/run_scheduled_tasks") (Some user)
       (Some password)].
Proof.
  intros Hbase Hconfigured.
  rewrite (trigger_configured_requests _ _ _ _ _ _ Hconfigured).
  by rewrite endpoint_url_slashes.
Qed.

Lemma endpoint_url_strips_every_slash_witness :
  requests (snd (trigger_scheduled_tasks
                   (example_world ci_environ Absent (Return ok_response))
                   start)) =
    [post_arguments "http://h/run_scheduled_tasks" (Some "admin")
       (Some "secret")].
Proof.
  apply (endpoint_url_strips_every_slash
           (example_world ci_environ Absent (Return ok_response))
           start
           (snd (load_env_variables
                   (example_world ci_environ Absent (Return ok_response))
                   start))
           "http://h" "admin" "secret" 2).
  - reflexivity.
  - eapply configured_example; [vm_compute; reflexivity|reflexivity..].
Defined.

(** C2, as the claim has it, fails. For the base URL [http://h//] the
    request goes to [http://h/run_scheduled_tasks]; with exactly one slash
    removed it would go to [http://h//run_scheduled_tasks]. *)
Lemma trim_one_trailing_slash_refuted :
  map req_url
    (requests (snd (trigger_scheduled_tasks
                      (example_world ci_environ Absent (Return ok_response))
                      start)))
  = ["http://h/run_scheduled_tasks"]
  /\ map req_url
       (requests (snd (trigger_scheduled_tasks
                         (example_world ci_environ Absent (Return ok_response))
                         start)))
     <> [trim_one_trailing_slash "http://h//" +:+ "/run_scheduled_tasks"].
Proof. split; vm_compute; [reflexivity|discriminate]. Qed.

(** ** C3: the exit code *)

Lemma start_banner_returns (w : world) (tr : trace) :
  fst (start_banner w tr) = Return tt.
Proof. reflexivity. Qed.



(** ** C6: no request without a configuration *)

(** C6. When [load_env_variables] returns [None], or returns a mapping
    that lacks one of [FLASK_APP_URL], [ADMIN_USERNAME] and
    [ADMIN_PASSWORD], [trigger_scheduled_tasks] logs one error message and
    returns [False]; the requests issued are those issued before the
    call. *)
Theorem trigger_fails_without_configuration (w : world) (tr tr1 : trace)
    (env_vars : option (gmap string string)) :
  load_env_variables w tr = (Return env_vars, tr1) ->
  env_vars = None
  \/ (exists cfg, env_vars = Some cfg
        /\ (cfg !! "FLASK_APP_URL" = None \/ cfg !! "ADMIN_USERNAME" = None
            \/ cfg !! "ADMIN_PASSWORD" = None)) ->
  exists message,
    trigger_scheduled_tasks w tr =
      (Return false,
       {| log := log tr1 ++ [(ERROR, message)]; requests := requests tr |}).
Proof.
  intros Hload Hlacks.
  apply (trigger_config_unusable w tr tr1 env_vars Hload).
  intros cfg ->.
  destruct Hlacks as [|(cfg' & [= <-] & [Hnone|[Hnone|Hnone]])]; [done|..];
    simpl; rewrite Hnone; simpl; by rewrite ?andb_false_r.
Qed.

Lemma trigger_fails_without_configuration_witness :
  exists message,
    trigger_scheduled_tasks (example_world ∅ Absent (Return ok_response)) start
    = (Return false,
       {| log :=
            log (snd (load_env_variables
                        (example_world ∅ Absent (Return ok_response)) start))
            ++ [(ERROR, message)];
          requests := [] |}).
Proof.
  apply (trigger_fails_without_configuration
           (example_world ∅ Absent (Return ok_response)) start
           (snd (load_env_variables
                   (example_world ∅ Absent (Return ok_response)) start))
           None).
  - reflexivity.
  - left. reflexivity.
Defined.

(** ** C7: the format of the [.env] file *)

(** C7. In file mode, for every content of the file, [load_env_variables]
    returns the mapping the format describes: each line that is not
    blank, is not a comment and holds [=] gives the trimmed text before
    the first [=] as key and the trimmed text after it, without the quote
    characters around it, as value. A blank line and a comment line leave
    the mapping as it is. *)
Theorem load_env_variables_file_format (w : world) (tr : trace)
    (content : string) :
  github_actions w = false ->
  files w (env_file w) = Present (Return content) ->
  fst (load_env_variables w tr) = Return (Some (DotEnv.mapping content))
  /\ (forall (env_vars : gmap string string) (line : string) (tr' : trace),
        DotEnv.is_blank line = true \/ DotEnv.is_comment line = true ->
        parse_line env_vars line tr' = (Return env_vars, tr')).
Proof.
  intros Hci Hfile. split.
  - by rewrite (load_env_variables_file w tr content Hci Hfile).
  - intros env_vars line tr' Hline. rewrite parse_line_entry.
    unfold DotEnv.add_entry, DotEnv.entry.
    by destruct Hline as [-> | ->]; rewrite ?orb_true_r.
Qed.

Lemma load_env_variables_file_format_witness :
  fst (load_env_variables
         (example_world ∅ (Present (Return dotenv_content))
            (Return ok_response)) start)
  = Return (Some {[ "FLASK_APP_URL" := "http://h/";
                    "ADMIN_USERNAME" := "admin";
                    "ADMIN_PASSWORD" := "s=1" ]}).
Proof.
  destruct (load_env_variables_file_format
              (example_world ∅ (Present (Return dotenv_content))
                 (Return ok_response))
              start dotenv_content) as [Hload _].
  - reflexivity.
  - reflexivity.
  - rewrite Hload. vm_compute. reflexivity.
Defined.

(** ** C9: a [.env] file without entries *)

(** C9. In file mode, when the file is there and none of its lines gives
    an entry, [load_env_variables] returns the empty mapping, and
    [trigger_scheduled_tasks] returns [False] with the message of a failed
    load and without a request: what it tests is that the mapping is
    empty or [None]. *)
Theorem trigger_fails_on_empty_dotenv (w : world) (tr : trace)
    (content : string) :
  github_actions w = false ->
  files w (env_file w) = Present (Return content) ->
  Forall (fun line => DotEnv.entry line = None) (PyStr.readlines content) ->
  fst (load_env_variables w tr) = Return (Some ∅)
  /\ trigger_scheduled_tasks w tr =
       (Return false,
        {| log := log (snd (load_env_variables w tr)) ++
             [(ERROR, [Lit "Failed to load environment variables"])];
           requests := requests tr |}).
Proof.
  intros Hci Hfile Hlines.
  pose proof (load_env_variables_file w tr content Hci Hfile) as Hload.
  rewrite (mapping_no_entry content Hlines) in Hload.
  split; [by rewrite Hload|].
  rewrite (trigger_config_falsy w tr _ (Some ∅) Hload); [|done].
  by rewrite Hload.
Qed.

Lemma trigger_fails_on_empty_dotenv_witness :
  fst (load_env_variables
         (example_world ∅ (Present (Return dotenv_comments))
            (Return ok_response)) start) = Return (Some ∅)
  /\ fst (trigger_scheduled_tasks
            (example_world ∅ (Present (Return dotenv_comments))
               (Return ok_response)) start) = Return false
  /\ requests (snd (trigger_scheduled_tasks
                      (example_world ∅ (Present (Return dotenv_comments))
                         (Return ok_response)) start)) = [].
Proof.
  destruct (trigger_fails_on_empty_dotenv
              (example_world ∅ (Present (Return dotenv_comments))
                 (Return ok_response))
              start dotenv_comments) as [Hload Hrun].
  - reflexivity.
  - reflexivity.
  - vm_compute. repeat constructor.
  - split; [exact Hload|]. by rewrite Hrun.
Defined.

(** ** CI mode: which variables are kept, and how many *)

Lemma required_vars_NoDup : NoDup required_vars.
Proof. apply (bool_decide_unpack _). by vm_compute. Qed.

Lemma collect_var_lookup (w : world) (m : gmap string string)
    (var key : string) :
  collect_var w m var !! key =
    if decide (var = key /\ truthy_value (getenv w var) = true)
    then getenv w var else m !! key.
Proof.
  unfold collect_var.
  destruct (getenv w var) as [value|] eqn:Hget; simpl.
  - destruct (PyStr.truthy value) eqn:Htruthy.
    + case_decide as Hd.
      * destruct Hd as [-> _]. by rewrite lookup_insert_eq.
      * rewrite lookup_insert_ne; [done|]. naive_solver.
    + case_decide as Hd; [|done]. by destruct Hd.
  - case_decide as Hd; [|done]. by destruct Hd.
Qed.

(** The mapping built by the loop: the variables of the list whose value
    is not empty, with their values. *)
Lemma collect_vars_lookup (w : world) (vars : list string)
    (m : gmap string string) (key : string) :
  foldl (collect_var w) m vars !! key =
    if decide (key ∈ vars /\ truthy_value (getenv w key) = true)
    then getenv w key else m !! key.
Proof.
  revert m. induction vars as [|var vars IH]; intros m; simpl.
  - done.
  - rewrite IH, collect_var_lookup.
    destruct (decide (key ∈ vars /\ truthy_value (getenv w key) = true))
      as [[Hin Htruthy]|Hrest].
    + rewrite decide_True; [done|]. split; [by right|done].
    + destruct (decide (var = key /\ truthy_value (getenv w var) = true))
        as [[-> Htruthy]|Hhead].
      * rewrite decide_True; [done|]. split; [by left|done].
      * rewrite decide_False; [done|]. intros [Hin Htruthy].
        inversion Hin; subst; [apply Hhead|apply Hrest]; done.
Qed.

Lemma collect_vars_size (w : world) (vars : list string)
    (m : gmap string string) :
  NoDup vars ->
  (forall var, var ∈ vars -> m !! var = None) ->
  size (foldl (collect_var w) m vars) =
    (size m + length (filter (fun var => truthy_value (getenv w var) = true)
                        vars))%nat.
Proof.
  intros Hnodup. revert m.
  induction Hnodup as [|var vars Hnotin Hnodup IH]; intros m Hfresh; simpl.
  - by rewrite Nat.add_0_r.
  - rewrite filter_cons. rewrite IH.
    + unfold collect_var.
      destruct (getenv w var) as [value|]; simpl;
        [destruct (PyStr.truthy value); simpl|].
      * rewrite map_size_insert_None by (apply Hfresh; left). lia.
      * done.
      * done.
    + intros var' Hin. rewrite collect_var_lookup.
      rewrite decide_False by (intros [-> _]; done).
      apply Hfresh. by right.
Qed.

Lemma required_vars_size (w : world) :
  size (foldl (collect_var w) ∅ required_vars) = length (present_vars w).
Proof.
  rewrite collect_vars_size; [done|apply required_vars_NoDup|done].
Qed.

(** In CI mode the load succeeds exactly when at least three of the nine
    variables have a non-empty value, whichever they are. *)
Lemma load_env_variables_ci_threshold (w : world) (tr : trace) :
  github_actions w = true ->
  (exists cfg, fst (load_env_variables w tr) = Return (Some cfg))
  <-> (3 ≤ length (present_vars w))%nat.
Proof.
  intros Hci. rewrite (load_env_variables_ci w tr Hci). cbv zeta.
  rewrite required_vars_size.
  case_bool_decide; simpl; split; try done; try eauto.
  intros [cfg [=]].
Qed.

Lemma getenv_drop_empty (w : world) (var : string) :
  getenv (with_environ w (drop_empty (environ w))) var =
    match getenv w var with
    | Some value => if PyStr.truthy value then Some value else None
    | None => None
    end.
Proof.
  unfold getenv, drop_empty. simpl.
  rewrite map_lookup_filter.
  destruct (environ w !! var) as [[|c value]|]; simpl; try done.
Qed.

Lemma github_actions_drop_empty (w : world) :
  github_actions (with_environ w (drop_empty (environ w))) = github_actions w.
Proof.
  unfold github_actions. rewrite getenv_drop_empty.
  destruct (getenv w "GITHUB_ACTIONS") as [[|c value]|]; simpl; try done.
Qed.

Lemma collect_var_drop_empty (w : world) (m : gmap string string)
    (var : string) :
  collect_var (with_environ w (drop_empty (environ w))) m var
  = collect_var w m var.
Proof.
  unfold collect_var. rewrite getenv_drop_empty.
  destruct (getenv w var) as [value|]; [|done].
  destruct (PyStr.truthy value) eqn:Htruthy; [|done]. by rewrite Htruthy.
Qed.

Lemma collect_vars_drop_empty (w : world) (vars : list string)
    (m : gmap string string) :
  foldl (collect_var (with_environ w (drop_empty (environ w)))) m vars
  = foldl (collect_var w) m vars.
Proof.
  revert m. induction vars as [|var vars IH]; intros m; [done|].
  simpl. by rewrite collect_var_drop_empty, IH.
Qed.

(** ** C10: in CI mode an empty variable is an absent variable *)

(** C10. In CI mode, for every environment, [load_env_variables] does the
    same with the environment as with the environment without its
    variables of empty value; every value of the mapping it returns is a
    non-empty value of the environment; and it returns a mapping exactly
    when at least three of the nine variables have a non-empty value. *)
Theorem load_env_variables_ci_empty_is_absent (w : world) (tr : trace) :
  github_actions w = true ->
  load_env_variables (with_environ w (drop_empty (environ w))) tr
    = load_env_variables w tr
  /\ (forall cfg var value,
        fst (load_env_variables w tr) = Return (Some cfg) ->
        cfg !! var = Some value ->
        value <> EmptyString /\ getenv w var = Some value)
  /\ ((exists cfg, fst (load_env_variables w tr) = Return (Some cfg))
      <-> (3 ≤ length (present_vars w))%nat).
Proof.
  intros Hci. split; [|split].
  - rewrite (load_env_variables_ci w tr Hci).
    rewrite load_env_variables_ci by (by rewrite github_actions_drop_empty).
    cbv zeta. by rewrite collect_vars_drop_empty.
  - intros cfg var value. rewrite (load_env_variables_ci w tr Hci). cbv zeta.
    case_bool_decide; cbn [fst]; [|done]. intros Hcfg.
    assert (cfg = foldl (collect_var w) ∅ required_vars) as ->
      by congruence.
    rewrite collect_vars_lookup. case_decide as Hd; [|done].
    destruct Hd as [_ Htruthy]. intros Hget. rewrite Hget in Htruthy.
    split; [|done]. by intros ->.
  - by apply load_env_variables_ci_threshold.
Qed.

Lemma load_env_variables_ci_empty_is_absent_witness :
  load_env_variables
    (example_world (drop_empty ci_empty_environ) Absent (Return ok_response))
    start
  = load_env_variables
      (example_world ci_empty_environ Absent (Return ok_response)) start
  /\ length (present_vars
               (example_world ci_empty_environ Absent (Return ok_response)))
     = 3%nat.
Proof.
  destruct (load_env_variables_ci_empty_is_absent
              (example_world ci_empty_environ Absent (Return ok_response))
              start) as [Hsame _].
  - reflexivity.
  - split; [exact Hsame|reflexivity].
Defined.

(** In CI mode the load succeeds when the three essential variables have
    a non-empty value. *)
Lemma load_env_variables_ci_essential (w : world) (tr : trace) :
  github_actions w = true ->
  truthy_value (getenv w "FLASK_APP_URL") = true ->
  truthy_value (getenv w "ADMIN_USERNAME") = true ->
  truthy_value (getenv w "ADMIN_PASSWORD") = true ->
  exists cfg, fst (load_env_variables w tr) = Return (Some cfg).
Proof.
  intros Hci Hurl Huser Hpassword.
  apply load_env_variables_ci_threshold; [done|].
  unfold present_vars, required_vars.
  rewrite !filter_cons, Hurl, Huser, Hpassword. simpl. lia.
Qed.

(** ** C1: the threshold of CI mode counts any three variables *)

(** C1, at the input where the code and the claim part. In CI mode with
    [DB_HOST], [DB_PORT] and [DB_NAME] set and none of [FLASK_APP_URL],
    [ADMIN_USERNAME] and [ADMIN_PASSWORD], [load_env_variables] returns
    the mapping of the three variables it found, not [None]. *)
Theorem load_env_variables_ci_counts_any_three :
  getenv (example_world ci_other_environ Absent (Return ok_response))
    "FLASK_APP_URL" = None
  /\ getenv (example_world ci_other_environ Absent (Return ok_response))
       "ADMIN_USERNAME" = None
  /\ getenv (example_world ci_other_environ Absent (Return ok_response))
       "ADMIN_PASSWORD" = None
  /\ github_actions (example_world ci_other_environ Absent (Return ok_response))
     = true
  /\ fst (load_env_variables
            (example_world ci_other_environ Absent (Return ok_response)) start)
     = Return (Some {[ "DB_HOST" := "db"; "DB_PORT" := "5432";
                       "DB_NAME" := "bot" ]}).
Proof. repeat split; vm_compute; reflexivity. Qed.

(** * Further properties of the script *)

(** ** What the handlers of [trigger_scheduled_tasks] do *)

Lemma trigger_handlers_cases (e : exn) (tr : trace) :
  (exists message,
     dispatch trigger_handlers e tr =
       (Return false,
        {| log := log tr ++ [(ERROR, message)]; requests := requests tr |}))
  \/ (dispatch trigger_handlers e tr = (Raise e, tr)
      /\ isinstance e Timeout = false
      /\ isinstance e ConnectionError = false
      /\ isinstance e RequestException = false
      /\ isinstance e Exception = false).
Proof.
  unfold trigger_handlers. simpl.
  destruct (isinstance e Timeout); [left; by eexists|].
  destruct (isinstance e ConnectionError); [left; by eexists|].
  destruct (isinstance e RequestException); [left; by eexists|].
  destruct (isinstance e Exception); [left; by eexists|].
  by right.
Qed.

Lemma trigger_handlers_not_true (e : exn) (tr tr' : trace) :
  dispatch trigger_handlers e tr <> (Return true, tr').
Proof.
  destruct (trigger_handlers_cases e tr) as [[message ->]|[-> _]]; congruence.
Qed.

(** The message each [except] clause logs. *)
Lemma trigger_handlers_message (e : exn) (tr : trace) :
  isinstance e Exception = true ->
  dispatch trigger_handlers e tr =
    (Return false,
     {| log := log tr ++
          [(ERROR,
            if isinstance e Timeout then
              [Lit "❌ Request timeout - Flask app may be slow or unresponsive"]
            else if isinstance e ConnectionError then
              [Lit "❌ Connection error - check FLASK_APP_URL and internet connection"]
            else if isinstance e RequestException then
              [Lit "❌ Request error: "; FExn e]
            else [Lit "❌ Unexpected error: "; FExn e])];
        requests := requests tr |}).
Proof.
  intros He. unfold trigger_handlers. simpl.
  destruct (isinstance e Timeout); [done|].
  destruct (isinstance e ConnectionError); [done|].
  destruct (isinstance e RequestException); [done|].
  by rewrite He.
Qed.

(** ** The paths through [check_response] *)

Lemma check_response_status (r : response) (tr : trace) :
  status_code r <> 200 ->
  check_response r tr =
    (Return false,
     {| log := log tr ++
          [(ERROR,
            if status_code r =? 401 then
              [Lit "❌ Authentication failed - check ADMIN_USERNAME and ADMIN_PASSWORD"]
            else if status_code r =? 404 then
              [Lit "❌ Endpoint not found - check FLASK_APP_URL"]
            else [Lit "❌ HTTP "; FInt (status_code r); Lit ": ";
                  FStr (text r)])];
        requests := requests tr |}).
Proof.
  intros Hstatus. unfold check_response.
  destruct (Z.eqb_spec (status_code r) 200) as [|_]; [done|].
  destruct (status_code r =? 401); [done|].
  by destruct (status_code r =? 404).
Qed.

(** A JSON value that is not an object. *)
Lemma check_response_not_dict (r : response) (v : json) (tr : trace) :
  status_code r = 200 ->
  json_body r = Return v ->
  (forall items, v <> JDict items) ->
  check_response r tr =
    (Raise (AttributeError "object has no attribute 'get'"),
     {| log := log tr ++
          [(INFO, [Lit "✅ Scheduled tasks executed successfully"])];
        requests := requests tr |}).
Proof.
  intros Hstatus Hjson Hv. unfold check_response.
  rewrite Hstatus, Hjson. unfold bind, lift, logger.
  destruct v; try reflexivity. by destruct (Hv items).
Qed.

(** [check_response] returns [True] for a response of status 200 with a
    JSON object, and for no other response. *)
Lemma check_response_true (r : response) (tr tr' : trace) :
  check_response r tr = (Return true, tr') ->
  status_code r = 200 /\ exists items, json_body r = Return (JDict items).
Proof.
  intros Hcheck.
  destruct (Z.eq_dec (status_code r) 200) as [Hstatus|Hstatus].
  - split; [done|].
    destruct (json_body r) as [v|e] eqn:Hjson.
    + destruct v; try by eexists.
      all: rewrite (check_response_not_dict r _ tr Hstatus Hjson) in Hcheck;
        done.
    + by rewrite (check_response_json_raises r e tr Hstatus Hjson) in Hcheck.
  - by rewrite (check_response_status r tr Hstatus) in Hcheck.
Qed.

(** ** The paths through [trigger_scheduled_tasks] *)

(** Either the configuration is usable, or the call ends without a
    request: with [False], or with an exception that no clause catches. *)
Lemma trigger_cases (w : world) (tr : trace) :
  (exists tr1 url user password, configured w tr tr1 url user password)
  \/ (exists tr', trigger_scheduled_tasks w tr = (Return false, tr')
                  /\ requests tr' = requests tr)
  \/ (exists e tr', trigger_scheduled_tasks w tr = (Raise e, tr')
                    /\ requests tr' = requests tr
                    /\ isinstance e Exception = false).
Proof.
  destruct (load_env_variables w tr) as [[env_vars|e] tr1] eqn:Hload.
  - destruct (truthy_config env_vars) eqn:Htruthy.
    + destruct env_vars as [cfg|]; [|done].
      destruct (forallb truthy_value
                  [cfg !! "FLASK_APP_URL"; cfg !! "ADMIN_USERNAME";
                   cfg !! "ADMIN_PASSWORD"]) eqn:Hall.
      * left. simpl in Hall.
        destruct (cfg !! "FLASK_APP_URL") as [url|] eqn:Hurl; [|done].
        destruct (cfg !! "ADMIN_USERNAME") as [user|] eqn:Huser;
          [|by rewrite andb_false_r in Hall].
        destruct (cfg !! "ADMIN_PASSWORD") as [password|] eqn:Hpassword;
          [|by rewrite !andb_false_r in Hall].
        simpl in Hall. rewrite andb_true_r in Hall.
        apply andb_prop in Hall as [Turl [Tuser Tpassword]%andb_prop].
        exists tr1, url, user, password, cfg. by repeat split.
      * right. left.
        destruct (trigger_config_unusable w tr tr1 (Some cfg) Hload)
          as [message Hrun]; [by intros ? [= <-]|].
        eexists. split; [exact Hrun|done].
    + right. left.
      pose proof (load_env_variables_quiet w tr) as Hq.
      rewrite Hload in Hq.
      eexists. split; [by apply (trigger_config_falsy w tr tr1 env_vars)|done].
  - pose proof (load_env_variables_quiet w tr) as Hq. rewrite Hload in Hq.
    assert (trigger_scheduled_tasks w tr = dispatch trigger_handlers e tr1)
      as Hrun.
    { unfold trigger_scheduled_tasks, try_except, trigger_body, bind.
      by rewrite Hload. }
    right. rewrite Hrun.
    destruct (trigger_handlers_cases e tr1)
      as [[message ->]|(-> & _ & _ & _ & He)].
    + left. eexists. split; [done|exact Hq].
    + right. by exists e, tr1.
Qed.

Lemma rstrip_by_endswith (p : ascii -> bool) (s : string) (c : ascii) :
  PyStr.endswith (PyStr.rstrip_by p s) c = true -> p c = false.
Proof.
  induction s as [|c0 s IH]; [done|]. simpl.
  destruct (PyStr.rstrip_by p s) as [|d r].
  - destruct (p c0) eqn:Hc0; [done|]. simpl.
    intros ->%Ascii.eqb_eq. exact Hc0.
  - exact IH.
Qed.

Lemma endpoint_url_base (url : string) :
  PyStr.endswith (PyStr.rstrip_chars "/" url) "/" = false.
Proof.
  destruct (PyStr.endswith (PyStr.rstrip_chars "/" url) "/") eqn:Hends;
    [|done].
  by apply rstrip_by_endswith in Hends.
Qed.

(** ** X1: the one request and its arguments *)

(** X1. A call of [trigger_scheduled_tasks] issues no request or one. The
    one request is issued when the configuration holds a non-empty base
    URL, user name and password, and then it carries these two as
    credentials, the timeout 30 and the JSON content type, and goes to a
    URL made of a text that does not end in a slash and of
    [/run_scheduled_tasks]. *)
Theorem trigger_issues_one_request_at_most (w : world) (tr : trace) :
  requests (snd (trigger_scheduled_tasks w tr)) = requests tr
  \/ exists tr1 url user password base,
       configured w tr tr1 url user password
       /\ PyStr.endswith base "/" = false
       /\ requests (snd (trigger_scheduled_tasks w tr)) =
            requests tr ++
            [{| req_url := base +:+ "/run_scheduled_tasks";
                req_auth := (Some user, Some password);
                req_timeout := 30;
                req_headers := [("Content-Type", "application/json")] |}].
Proof.
  destruct (trigger_cases w tr)
    as [(tr1 & url & user & password & Hconfigured)
       |[(tr' & -> & Hrequests)|(e & tr' & -> & Hrequests & _)]].
  - right. exists tr1, url, user, password, (PyStr.rstrip_chars "/" url).
    split; [done|]. split; [apply endpoint_url_base|].
    by rewrite (trigger_configured_requests _ _ _ _ _ _ Hconfigured).
  - by left.
  - by left.
Qed.

(** ** X2: success needs status 200 and a JSON object *)

Lemma trigger_true_cases (w : world) (tr tr' : trace) :
  trigger_scheduled_tasks w tr = (Return true, tr') ->
  exists tr1 url user password r items,
    configured w tr tr1 url user password
    /\ remote w (post_arguments (endpoint_url url) (Some user) (Some password))
       = Return r
    /\ status_code r = 200
    /\ json_body r = Return (JDict items).
Proof.
  intros Hrun.
  destruct (trigger_cases w tr)
    as [(tr1 & url & user & password & Hconfigured)
       |[(tr2 & Hfalse & _)|(e & tr2 & Hraise & _)]];
    [|congruence..].
  rewrite (trigger_configured _ _ _ _ _ _ Hconfigured) in Hrun.
  destruct (remote w _) as [r|e] eqn:Hremote.
  - unfold try_except in Hrun.
    destruct (check_response r _) as [[[|]|e] tr2] eqn:Hcheck.
    + apply check_response_true in Hcheck as [Hstatus [items Hjson]].
      by exists tr1, url, user, password, r, items.
    + congruence.
    + by apply trigger_handlers_not_true in Hrun.
  - by apply trigger_handlers_not_true in Hrun.
Qed.

(** X2. When [trigger_scheduled_tasks] returns [True], the configuration
    was usable, the one request was issued, and the answer to it was a
    response of status 200 whose body is a JSON object. *)
Theorem trigger_true_only_on_json_object (w : world) (tr tr' : trace) :
  trigger_scheduled_tasks w tr = (Return true, tr') ->
  exists tr1 url user password r items,
    configured w tr tr1 url user password
    /\ requests tr' =
         requests tr ++
         [post_arguments (endpoint_url url) (Some user) (Some password)]
    /\ remote w (post_arguments (endpoint_url url) (Some user) (Some password))
       = Return r
    /\ status_code r = 200
    /\ json_body r = Return (JDict items).
Proof.
  intros Hrun.
  destruct (trigger_true_cases w tr tr' Hrun)
    as (tr1 & url & user & password & r & items & Hconfigured & Hremote
        & Hstatus & Hjson).
  exists tr1, url, user, password, r, items.
  split; [done|]. split; [|done].
  pose proof (trigger_configured_requests _ _ _ _ _ _ Hconfigured) as Hreq.
  by rewrite Hrun in Hreq.
Qed.

Lemma trigger_true_only_on_json_object_witness :
  exists tr1 url user password r items,
    configured (dotenv_world (Return ok_response)) start tr1 url user password
    /\ requests (snd (trigger_scheduled_tasks
                        (dotenv_world (Return ok_response)) start)) =
         requests start ++
         [post_arguments (endpoint_url url) (Some user) (Some password)]
    /\ remote (dotenv_world (Return ok_response))
         (post_arguments (endpoint_url url) (Some user) (Some password))
       = Return r
    /\ status_code r = 200
    /\ json_body r = Return (JDict items).
Proof.
  apply (trigger_true_only_on_json_object (dotenv_world (Return ok_response))
           start
           (snd (trigger_scheduled_tasks (dotenv_world (Return ok_response))
                   start))).
  vm_compute. reflexivity.
Defined.

(** ** X3: no exception of class [Exception] leaves the trigger *)

(** X3. An exception that [trigger_scheduled_tasks] raises is an instance
    of none of the classes of its [except] clauses: not of [Exception],
    hence not of the classes of [requests] either. *)
Theorem trigger_raises_no_exception (w : world) (tr tr' : trace) (e : exn) :
  trigger_scheduled_tasks w tr = (Raise e, tr') ->
  isinstance e Exception = false
  /\ isinstance e RequestException = false
  /\ isinstance e ConnectionError = false
  /\ isinstance e Timeout = false.
Proof.
  unfold trigger_scheduled_tasks, try_except.
  destruct (trigger_body w tr) as [[b|e0] tr0]; [done|].
  destruct (trigger_handlers_cases e0 tr0)
    as [[message ->]|(-> & Ht & Hc & Hr & He)]; [done|].
  by intros [= <- _].
Qed.

Lemma trigger_raises_no_exception_witness :
  isinstance keyboard_interrupt Exception = false
  /\ isinstance keyboard_interrupt RequestException = false
  /\ isinstance keyboard_interrupt ConnectionError = false
  /\ isinstance keyboard_interrupt Timeout = false.
Proof.
  apply (trigger_raises_no_exception
           (dotenv_world (Raise keyboard_interrupt)) start
           (snd (trigger_scheduled_tasks
                   (dotenv_world (Raise keyboard_interrupt)) start))).
  vm_compute. reflexivity.
Defined.

(** ** X4: which clause reports an error of the transport *)

(** X4. With a usable configuration, when the POST raises an instance of
    [Exception], [trigger_scheduled_tasks] returns [False] after the
    message of the first clause that matches: a timeout is reported as a
    timeout even when it is a connection error too, a connection error as
    such, another error of [requests] and any other exception with the
    exception in the message. *)
Theorem trigger_transport_error_message (w : world) (tr tr1 : trace)
    (url user password : string) (e : exn) :
  configured w tr tr1 url user password ->
  remote w (post_arguments (endpoint_url url) (Some user) (Some password))
    = Raise e ->
  isinstance e Exception = true ->
  trigger_scheduled_tasks w tr =
    (Return false,
     {| log := log (posted tr tr1 url user password) ++
          [(ERROR,
            if isinstance e Timeout then
              [Lit "❌ Request timeout - Flask app may be slow or unresponsive"]
            else if isinstance e ConnectionError then
              [Lit "❌ Connection error - check FLASK_APP_URL and internet connection"]
            else if isinstance e RequestException then
              [Lit "❌ Request error: "; FExn e]
            else [Lit "❌ Unexpected error: "; FExn e])];
        requests := requests (posted tr tr1 url user password) |}).
Proof.
  intros Hconfigured Hremote He.
  rewrite (trigger_configured _ _ _ _ _ _ Hconfigured), Hremote.
  by apply trigger_handlers_message.
Qed.

Lemma trigger_transport_error_message_witness :
  trigger_scheduled_tasks (dotenv_world (Raise connect_timeout)) start =
    (Return false,
     {| log :=
          [(INFO, [Lit "Loaded "; FInt 3;
                   Lit " environment variables from .env file"]);
           (INFO, [Lit "Triggering scheduled tasks at ";
                   FStr "http://h/run_scheduled_tasks"]);
           (ERROR, [Lit "❌ Request timeout - Flask app may be slow or unresponsive"])];
        requests :=
          [post_arguments "http://h/run_scheduled_tasks" (Some "admin")
             (Some "s=1")] |}).
Proof.
  rewrite (trigger_transport_error_message
             (dotenv_world (Raise connect_timeout)) start
             (snd (load_env_variables (dotenv_world (Raise connect_timeout))
                     start))
             "http://h/" "admin" "s=1" connect_timeout).
  - vm_compute. reflexivity.
  - eexists. repeat split; vm_compute; reflexivity.
  - reflexivity.
  - reflexivity.
Defined.

(** ** X5: the message for a status other than 200 *)

(** X5. With a usable configuration, when the answer has a status other
    than 200, [trigger_scheduled_tasks] returns [False] after one message:
    that of a failed authentication for 401, that of a missing endpoint
    for 404, and for any other status the status and the text of the
    response. The body is not parsed. *)
Theorem trigger_status_message (w : world) (tr tr1 : trace)
    (url user password : string) (r : response) :
  configured w tr tr1 url user password ->
  remote w (post_arguments (endpoint_url url) (Some user) (Some password))
    = Return r ->
  status_code r <> 200 ->
  trigger_scheduled_tasks w tr =
    (Return false,
     {| log := log (posted tr tr1 url user password) ++
          [(ERROR,
            if status_code r =? 401 then
              [Lit "❌ Authentication failed - check ADMIN_USERNAME and ADMIN_PASSWORD"]
            else if status_code r =? 404 then
              [Lit "❌ Endpoint not found - check FLASK_APP_URL"]
            else [Lit "❌ HTTP "; FInt (status_code r); Lit ": ";
                  FStr (text r)])];
        requests := requests (posted tr tr1 url user password) |}).
Proof.
  intros Hconfigured Hremote Hstatus.
  rewrite (trigger_configured _ _ _ _ _ _ Hconfigured), Hremote.
  unfold try_except. by rewrite (check_response_status r _ Hstatus).
Qed.

Lemma trigger_status_message_witness :
  trigger_scheduled_tasks (dotenv_world (Return unavailable_response)) start =
    (Return false,
     {| log :=
          [(INFO, [Lit "Loaded "; FInt 3;
                   Lit " environment variables from .env file"]);
           (INFO, [Lit "Triggering scheduled tasks at ";
                   FStr "http://h/run_scheduled_tasks"]);
           (ERROR, [Lit "❌ HTTP "; FInt 503; Lit ": ";
                    FStr "Service Unavailable"])];
        requests :=
          [post_arguments "http://h/run_scheduled_tasks" (Some "admin")
             (Some "s=1")] |}).
Proof.
  rewrite (trigger_status_message
             (dotenv_world (Return unavailable_response)) start
             (snd (load_env_variables
                     (dotenv_world (Return unavailable_response)) start))
             "http://h/" "admin" "s=1" unavailable_response).
  - vm_compute. reflexivity.
  - eexists. repeat split; vm_compute; reflexivity.
  - reflexivity.
  - discriminate.
Defined.

(** ** X6: a response of status 200 whose JSON is not an object *)



(** ** X7: in CI mode a missing essential variable stops the trigger *)

Lemma load_env_variables_ci_lookup (w : world) (tr : trace)
    (cfg : gmap string string) (var : string) :
  github_actions w = true ->
  fst (load_env_variables w tr) = Return (Some cfg) ->
  cfg !! var =
    if decide (var ∈ required_vars /\ truthy_value (getenv w var) = true)
    then getenv w var else None.
Proof.
  intros Hci. rewrite (load_env_variables_ci w tr Hci). cbv zeta.
  case_bool_decide; cbn [fst]; [|done]. intros Hcfg.
  assert (cfg = foldl (collect_var w) ∅ required_vars) as -> by congruence.
  by rewrite collect_vars_lookup, lookup_empty.
Qed.

Lemma load_env_variables_ci_returns (w : world) (tr : trace) :
  github_actions w = true ->
  exists env_vars, fst (load_env_variables w tr) = Return env_vars.
Proof.
  intros Hci. rewrite (load_env_variables_ci w tr Hci). cbv zeta.
  case_bool_decide; by eexists.
Qed.

Lemma load_env_variables_ci_falsy (w : world) (tr : trace)
    (cfg : gmap string string) (var : string) :
  github_actions w = true ->
  fst (load_env_variables w tr) = Return (Some cfg) ->
  truthy_value (getenv w var) = false ->
  truthy_value (cfg !! var) = false.
Proof.
  intros Hci Hcfg Hfalsy.
  rewrite (load_env_variables_ci_lookup w tr cfg var Hci Hcfg).
  case_decide as Hd; [|done]. destruct Hd as [_ Htruthy]. congruence.
Qed.

(** X7. In CI mode, when one of [FLASK_APP_URL], [ADMIN_USERNAME] and
    [ADMIN_PASSWORD] is unset or empty, [trigger_scheduled_tasks] returns
    [False] and issues no request, whether or not [load_env_variables]
    found three variables. *)
Theorem trigger_ci_needs_essential_variables (w : world) (tr : trace) :
  github_actions w = true ->
  truthy_value (getenv w "FLASK_APP_URL") = false
  \/ truthy_value (getenv w "ADMIN_USERNAME") = false
  \/ truthy_value (getenv w "ADMIN_PASSWORD") = false ->
  fst (trigger_scheduled_tasks w tr) = Return false
  /\ requests (snd (trigger_scheduled_tasks w tr)) = requests tr.
Proof.
  intros Hci Hmissing.
  destruct (load_env_variables_ci_returns w tr Hci) as [env_vars Hfst].
  destruct (load_env_variables w tr) as [o tr1] eqn:Hload.
  cbn [fst] in Hfst. subst o.
  destruct (trigger_config_unusable w tr tr1 env_vars Hload)
    as [message ->]; [|done].
  intros cfg ->.
  assert (fst (load_env_variables w tr) = Return (Some cfg)) as Hcfg
    by (by rewrite Hload).
  cbn [forallb].
  destruct Hmissing as [Hm|[Hm|Hm]];
    rewrite (load_env_variables_ci_falsy w tr cfg _ Hci Hcfg Hm);
    by rewrite ?andb_false_r.
Qed.

Lemma trigger_ci_needs_essential_variables_witness :
  fst (trigger_scheduled_tasks
         (example_world ci_other_environ Absent (Return ok_response)) start)
    = Return false
  /\ requests (snd (trigger_scheduled_tasks
                      (example_world ci_other_environ Absent
                         (Return ok_response)) start)) = [].
Proof.
  apply (trigger_ci_needs_essential_variables
           (example_world ci_other_environ Absent (Return ok_response)) start).
  - reflexivity.
  - left. reflexivity.
Defined.

(** ** X8: the mapping of CI mode *)

(** X8. In CI mode the mapping that [load_env_variables] returns holds
    the variables of [required_vars] that have a non-empty value in the
    environment, with that value, and nothing else: no other variable of
    the environment, [GITHUB_ACTIONS] included, gets into it. *)
Theorem load_env_variables_ci_mapping (w : world) (tr : trace)
    (cfg : gmap string string) (var value : string) :
  github_actions w = true ->
  fst (load_env_variables w tr) = Return (Some cfg) ->
  cfg !! var = Some value
  <-> var ∈ required_vars /\ getenv w var = Some value
      /\ value <> EmptyString.
Proof.
  intros Hci Hcfg.
  rewrite (load_env_variables_ci_lookup w tr cfg var Hci Hcfg).
  case_decide as Hd.
  - destruct Hd as [Hin Htruthy]. split.
    + intros Hget. rewrite Hget in Htruthy. repeat split; [done..|].
      by intros ->.
    + by intros (_ & Hget & _).
  - split; [done|]. intros (Hin & Hget & Hvalue). destruct Hd.
    split; [done|]. rewrite Hget. by destruct value.
Qed.

Lemma load_env_variables_ci_mapping_witness :
  ({[ "FLASK_APP_URL" := "http://h"; "ADMIN_USERNAME" := "admin";
      "ADMIN_PASSWORD" := "secret" ]} : gmap string string)
    !! "GITHUB_ACTIONS" = Some "true"
  <-> "GITHUB_ACTIONS" ∈ required_vars
      /\ getenv (example_world ci_empty_environ Absent (Return ok_response))
           "GITHUB_ACTIONS" = Some "true"
      /\ "true" <> EmptyString.
Proof.
  apply (load_env_variables_ci_mapping
           (example_world ci_empty_environ Absent (Return ok_response))
           start).
  - reflexivity.
  - vm_compute. reflexivity.
Defined.

(** ** X9: file mode without a [.env] file *)

(** X9. Outside CI mode, whatever the environment holds, when there is no
    [.env] file beside the script [load_env_variables] returns [None]
    after three messages, the first an error that names the path it
    looked at. *)
Theorem load_env_variables_missing_file (w : world) (tr : trace) :
  github_actions w = false ->
  files w (env_file w) = Absent ->
  load_env_variables w tr =
    (Return None,
     {| log := log tr ++
          [(ERROR, [Lit ".env file not found at "; FStr (env_file w)]);
           (INFO, [Lit "For GitHub Actions, ensure all secrets are configured"]);
           (INFO, [Lit "For local development, copy .env.example to .env and fill in values"])];
        requests := requests tr |}).
Proof.
  intros Hci Hfile. unfold load_env_variables. rewrite Hci, Hfile.
  unfold bind, logger, ret. cbn [log requests].
  by rewrite <- !app_assoc.
Qed.

Lemma load_env_variables_missing_file_witness :
  fst (load_env_variables
         (example_world {[ "GITHUB_ACTIONS" := "True";
                           "FLASK_APP_URL" := "http://h";
                           "ADMIN_USERNAME" := "admin";
                           "ADMIN_PASSWORD" := "secret" ]}
            Absent (Return ok_response)) start)
  = Return None.
Proof.
  rewrite (load_env_variables_missing_file
             (example_world {[ "GITHUB_ACTIONS" := "True";
                               "FLASK_APP_URL" := "http://h";
                               "ADMIN_USERNAME" := "admin";
                               "ADMIN_PASSWORD" := "secret" ]}
                Absent (Return ok_response)) start).
  - reflexivity.
  - reflexivity.
  - reflexivity.
Defined.

(** ** X10: a [.env] file that cannot be read *)

(** X10. Outside CI mode, when the [.env] file is there and reading it
    raises, [load_env_variables] returns [None] after one error message
    that holds the exception, if the exception is an instance of
    [Exception]; any other exception leaves [load_env_variables], with
    nothing logged. *)
Theorem load_env_variables_unreadable_file (w : world) (tr : trace)
    (e : exn) :
  github_actions w = false ->
  files w (env_file w) = Present (Raise e) ->
  load_env_variables w tr =
    if isinstance e Exception then
      (Return None,
       {| log := log tr ++ [(ERROR, [Lit "Error reading .env file: "; FExn e])];
          requests := requests tr |})
    else (Raise e, tr).
Proof.
  intros Hci Hfile. unfold load_env_variables. rewrite Hci, Hfile.
  unfold try_except, bind, lift. simpl.
  by destruct (isinstance e Exception).
Qed.

Lemma load_env_variables_unreadable_file_witness :
  load_env_variables
    (example_world ∅ (Present (Raise permission_error)) (Return ok_response))
    start
  = (Return None,
     {| log := [(ERROR, [Lit "Error reading .env file: ";
                         FExn permission_error])];
        requests := [] |}).
Proof.
  rewrite (load_env_variables_unreadable_file
             (example_world ∅ (Present (Raise permission_error))
                (Return ok_response)) start permission_error).
  - reflexivity.
  - reflexivity.
  - reflexivity.
Defined.

(** ** X11: the keys and values read from a [.env] file *)

Lemma strip_by_idemp (p : ascii -> bool) (s : string) :
  PyStr.strip_by p (PyStr.strip_by p s) = PyStr.strip_by p s.
Proof.
  unfold PyStr.strip_by at 2. by rewrite strip_by_rstrip, strip_by_lstrip.
Qed.

Lemma mem_before (sep : ascii) (s : string) :
  PyStr.mem sep (DotEnv.before sep s) = false.
Proof.
  induction s as [|c s IH]; [done|]. simpl.
  destruct (Ascii.eqb c sep) eqn:Hc; [done|]. simpl.
  by rewrite (Ascii.eqb_sym sep c), Hc.
Qed.

Lemma entry_clean (line key value : string) :
  DotEnv.entry line = Some (key, value) ->
  PyStr.strip key = key
  /\ PyStr.contains "=" key = false
  /\ PyStr.strip_chars quotes value = value.
Proof.
  unfold DotEnv.entry.
  destruct (_ || _ || _); [done|]. intros [= <- <-].
  split; [apply strip_by_idemp|]. split; [|apply strip_by_idemp].
  unfold PyStr.contains, PyStr.strip, PyStr.strip_by.
  rewrite mem_rstrip_by, mem_lstrip_by by apply is_space_equals.
  apply mem_before.
Qed.

Lemma mapping_lookup_entry (content key value : string) :
  DotEnv.mapping content !! key = Some value ->
  exists line, line ∈ PyStr.readlines content
               /\ DotEnv.entry line = Some (key, value).
Proof.
  unfold DotEnv.mapping. intros Hlookup.
  apply elem_of_list_to_map_2 in Hlookup.
  rewrite elem_of_reverse in Hlookup.
  by apply list_elem_of_omap in Hlookup.
Qed.

(** X11. In file mode every key of the mapping that [load_env_variables]
    returns is free of white space at both ends and holds no [=], and
    every value is free of quote characters at both ends: trimming the
    key again, or stripping the quotes of the value again, changes
    nothing. *)
Theorem load_env_variables_file_entries_clean (w : world) (tr : trace)
    (content : string) (cfg : gmap string string) (key value : string) :
  github_actions w = false ->
  files w (env_file w) = Present (Return content) ->
  fst (load_env_variables w tr) = Return (Some cfg) ->
  cfg !! key = Some value ->
  PyStr.strip key = key
  /\ PyStr.contains "=" key = false
  /\ PyStr.strip_chars quotes value = value.
Proof.
  intros Hci Hfile. rewrite (load_env_variables_file w tr content Hci Hfile).
  cbn [fst]. intros [= <-] Hlookup.
  apply mapping_lookup_entry in Hlookup as (line & _ & Hentry).
  by apply (entry_clean line).
Qed.

Lemma load_env_variables_file_entries_clean_witness :
  PyStr.strip "FLASK_APP_URL" = "FLASK_APP_URL"
  /\ PyStr.contains "=" "FLASK_APP_URL" = false
  /\ PyStr.strip_chars quotes "http://h/" = "http://h/".
Proof.
  apply (load_env_variables_file_entries_clean
           (dotenv_world (Return ok_response)) start dotenv_content
           {[ "FLASK_APP_URL" := "http://h/"; "ADMIN_USERNAME" := "admin";
              "ADMIN_PASSWORD" := "s=1" ]}).
  - reflexivity.
  - reflexivity.
  - vm_compute. reflexivity.
  - reflexivity.
Defined.

(** ** X12: a line written as [KEY=VALUE] is read back *)

Lemma strip_by_fixed (p : ascii -> bool) (s : string) :
  PyStr.strip_by p s = s ->
  PyStr.lstrip_by p s = s /\ PyStr.rstrip_by p s = s.
Proof.
  intros Hs. split.
  - rewrite <- Hs at 1. unfold PyStr.strip_by.
    rewrite lstrip_rstrip_comm, lstrip_by_idemp. exact Hs.
  - rewrite <- Hs at 1. unfold PyStr.strip_by.
    rewrite rstrip_by_idemp. exact Hs.
Qed.

Lemma mem_append (c : ascii) (s t : string) :
  PyStr.mem c (s +:+ t) = PyStr.mem c s || PyStr.mem c t.
Proof.
  induction s as [|d s IH]; [done|].
  rewrite append_cons. simpl. by rewrite IH, orb_assoc.
Qed.

Lemma all_chars_mem (p : ascii -> bool) (s : string) (c : ascii) :
  DotEnv.all_chars p s = true -> PyStr.mem c s = true -> p c = true.
Proof.
  induction s as [|d s IH]; [done|]. simpl.
  intros [Hd Hs]%andb_prop [Hc|Hc]%orb_prop.
  - by apply Ascii.eqb_eq in Hc as ->.
  - by apply IH.
Qed.

Lemma before_append (sep : ascii) (s t : string) :
  PyStr.mem sep s = false ->
  DotEnv.before sep (s +:+ String sep t) = s
  /\ DotEnv.after sep (s +:+ String sep t) = t.
Proof.
  induction s as [|c s IH].
  - intros _. rewrite append_nil_l. simpl. by rewrite Ascii.eqb_refl.
  - rewrite append_cons. simpl. intros [Hc Hs]%orb_false_elim.
    rewrite (Ascii.eqb_sym c sep), Hc. destruct (IH Hs) as [-> ->]. done.
Qed.

Lemma lstrip_by_append (p : ascii -> bool) (s t : string) :
  PyStr.lstrip_by p (s +:+ t) =
    if DotEnv.all_chars p s then PyStr.lstrip_by p t
    else PyStr.lstrip_by p s +:+ t.
Proof.
  induction s as [|c s IH]; [done|].
  rewrite append_cons. simpl. destruct (p c); [exact IH|done].
Qed.

Lemma strip_by_append (p : ascii -> bool) (s t : string) :
  DotEnv.all_chars p t = true ->
  PyStr.strip_by p (s +:+ t) = PyStr.strip_by p s.
Proof.
  intros Ht. unfold PyStr.strip_by. rewrite lstrip_by_append.
  destruct (DotEnv.all_chars p s) eqn:Hs.
  - apply lstrip_by_nil_iff in Ht. rewrite Ht.
    apply lstrip_by_nil_iff in Hs. by rewrite Hs.
  - by apply rstrip_by_app.
Qed.

Lemma startswith_append (s t : string) (c : ascii) :
  PyStr.startswith (s +:+ t) (String c EmptyString) =
    match s with
    | EmptyString => PyStr.startswith t (String c EmptyString)
    | String _ _ => PyStr.startswith s (String c EmptyString)
    end.
Proof. by destruct s. Qed.

Lemma entry_of_key_and_text (key text : string) :
  PyStr.strip key = key ->
  PyStr.contains "=" key = false ->
  PyStr.startswith key "#" = false ->
  DotEnv.entry (key +:+ String "=" text)
  = Some (key, PyStr.strip_chars quotes (PyStr.strip text)).
Proof.
  intros Hkey Heq Hhash. unfold DotEnv.entry.
  assert (PyStr.contains "=" (key +:+ String "=" text) = true)
    as Hcontains.
  { unfold PyStr.contains. rewrite mem_append. simpl.
    by rewrite orb_true_r. }
  assert (DotEnv.is_blank (key +:+ String "=" text) = false)
    as Hblank.
  { destruct (DotEnv.is_blank _) eqn:Hb; [|done].
    pose proof (all_chars_mem _ _ _ Hb Hcontains) as Hspace.
    by rewrite is_space_equals in Hspace. }
  assert (DotEnv.is_comment (key +:+ String "=" text) = false)
    as Hcomment.
  { unfold DotEnv.is_comment. rewrite lstrip_by_append.
    destruct (strip_by_fixed _ _ Hkey) as [Hl _].
    destruct (DotEnv.all_chars PyStr.is_space key) eqn:Hall.
    - apply lstrip_by_nil_iff in Hall. rewrite Hl in Hall. by subst key.
    - rewrite Hl, startswith_append. destruct key; [|exact Hhash].
      done. }
  rewrite Hcontains, Hblank, Hcomment. simpl.
  destruct (before_append "=" key text Heq) as [-> ->].
  by rewrite Hkey.
Qed.

(** X12. The body of the loop over the lines reads back what was
    written: for a key without white space at its ends, without [=] and
    not starting with [#], and a value without white space or quote
    characters at its ends, the line [key=value], followed by any white
    space such as the end of the line, stores [value] under [key] and
    raises nothing. The value may hold [=]. *)
Theorem parse_line_reads_written_line (env_vars : gmap string string)
    (key value padding : string) (tr : trace) :
  PyStr.strip key = key ->
  PyStr.contains "=" key = false ->
  PyStr.startswith key "#" = false ->
  PyStr.strip value = value ->
  PyStr.strip_chars quotes value = value ->
  DotEnv.all_chars PyStr.is_space padding = true ->
  parse_line env_vars (key +:+ String "=" (value +:+ padding)) tr
  = (Return (<[key := value]> env_vars), tr).
Proof.
  intros Hkey Heq Hhash Hvalue Hquotes Hpadding.
  rewrite parse_line_entry. unfold DotEnv.add_entry.
  rewrite entry_of_key_and_text by done.
  unfold PyStr.strip at 1. rewrite strip_by_append by exact Hpadding.
  fold (PyStr.strip value). by rewrite Hvalue, Hquotes.
Qed.

Lemma parse_line_reads_written_line_witness :
  parse_line ∅ ("DB_HOST=db.example.org" +:+ String PyStr.LF EmptyString) start
  = (Return {[ "DB_HOST" := "db.example.org" ]}, start).
Proof.
  apply (parse_line_reads_written_line ∅ "DB_HOST" "db.example.org"
           (String PyStr.LF EmptyString) start); reflexivity.
Defined.

(** ** X13: a value in quotes *)

Lemma append_assoc_string (s t u : string) : (s +:+ t) +:+ u = s +:+ t +:+ u.
Proof.
  induction s as [|c s IH]; [done|]. by rewrite !append_cons, IH.
Qed.

Lemma endswith_append (s t : string) (c : ascii) :
  t <> EmptyString ->
  PyStr.endswith (s +:+ t) c = PyStr.endswith t c.
Proof.
  intros Ht. induction s as [|d s IH]; [done|].
  rewrite append_cons.
  change (PyStr.endswith (String d (s +:+ t)) c) with
    (match s +:+ t with
     | EmptyString => Ascii.eqb d c
     | String _ _ => PyStr.endswith (s +:+ t) c
     end).
  destruct (s +:+ t) eqn:Happ; [|exact IH].
  destruct s; [|done]. by rewrite append_nil_l in Happ.
Qed.

Lemma all_chars_endswith (p : ascii -> bool) (s : string) (c : ascii) :
  DotEnv.all_chars p s = true -> PyStr.endswith s c = true -> p c = true.
Proof.
  induction s as [|d s IH]; [done|].
  intros [Hd Hs]%andb_prop.
  change (PyStr.endswith (String d s) c) with
    (match s with
     | EmptyString => Ascii.eqb d c
     | String _ _ => PyStr.endswith s c
     end).
  destruct s; [|by apply IH]. by intros ->%Ascii.eqb_eq.
Qed.

Lemma quote_not_space (c : ascii) :
  PyStr.mem c quotes = true -> PyStr.is_space c = false.
Proof.
  unfold quotes. simpl. rewrite orb_false_r.
  by intros [->%Ascii.eqb_eq| ->%Ascii.eqb_eq]%orb_prop.
Qed.

(** A text in quotes is not changed by the trimming of white space. *)
Lemma strip_quoted (opening closing inner : string) :
  opening <> EmptyString -> closing <> EmptyString ->
  DotEnv.all_chars (fun c => PyStr.mem c quotes) opening = true ->
  DotEnv.all_chars (fun c => PyStr.mem c quotes) closing = true ->
  PyStr.strip (opening +:+ inner +:+ closing)
  = opening +:+ inner +:+ closing.
Proof.
  intros Hopen Hclose Hqo Hqc. unfold PyStr.strip, PyStr.strip_by.
  assert (PyStr.lstrip_by PyStr.is_space (opening +:+ inner +:+ closing)
          = opening +:+ inner +:+ closing) as ->.
  { destruct opening as [|c opening]; [done|].
    rewrite append_cons. simpl in Hqo. apply andb_prop in Hqo as [Hc _].
    simpl. by rewrite (quote_not_space c Hc). }
  apply rstrip_by_id. intros c.
  rewrite <- append_assoc_string, endswith_append by done.
  intros Hc. apply quote_not_space.
  exact (all_chars_endswith (fun c => PyStr.mem c quotes) closing c Hqc Hc).
Qed.

Lemma strip_by_prepend (p : ascii -> bool) (s t : string) :
  DotEnv.all_chars p s = true ->
  PyStr.strip_by p (s +:+ t) = PyStr.strip_by p t.
Proof.
  intros Hs. unfold PyStr.strip_by. by rewrite lstrip_by_append, Hs.
Qed.

(** X13. A value written between quote characters is read back as it
    stands between them, white space at its ends included: the quote
    characters before it and after it, of either kind and in any number,
    matching or not, are all removed. *)
Theorem parse_line_reads_quoted_value (env_vars : gmap string string)
    (key value opening closing padding : string) (tr : trace) :
  PyStr.strip key = key ->
  PyStr.contains "=" key = false ->
  PyStr.startswith key "#" = false ->
  opening <> EmptyString -> closing <> EmptyString ->
  DotEnv.all_chars (fun c => PyStr.mem c quotes) opening = true ->
  DotEnv.all_chars (fun c => PyStr.mem c quotes) closing = true ->
  PyStr.strip_chars quotes value = value ->
  DotEnv.all_chars PyStr.is_space padding = true ->
  parse_line env_vars
    (key +:+ String "=" ((opening +:+ value +:+ closing) +:+ padding)) tr
  = (Return (<[key := value]> env_vars), tr).
Proof.
  intros Hkey Heq Hhash Hopen Hclose Hqo Hqc Hvalue Hpadding.
  rewrite parse_line_entry. unfold DotEnv.add_entry.
  rewrite entry_of_key_and_text by done.
  unfold PyStr.strip at 1. rewrite strip_by_append by exact Hpadding.
  fold (PyStr.strip (opening +:+ value +:+ closing)).
  rewrite strip_quoted by done.
  unfold PyStr.strip_chars.
  rewrite strip_by_prepend by exact Hqo.
  rewrite strip_by_append by exact Hqc.
  unfold PyStr.strip_chars in Hvalue. by rewrite Hvalue.
Qed.

Lemma parse_line_reads_quoted_value_witness :
  parse_line ∅
    ("GREETING=" +:+ String "034" (String "039" (" hello world " +:+
       String "034" (String PyStr.CR (String PyStr.LF EmptyString)))))
    start
  = (Return {[ "GREETING" := " hello world " ]}, start).
Proof.
  apply (parse_line_reads_quoted_value ∅ "GREETING" " hello world "
           (String "034" (String "039" EmptyString))
           (String "034" EmptyString)
           (String PyStr.CR (String PyStr.LF EmptyString)) start);
    try reflexivity; discriminate.
Defined.

(** ** X14: the last line of a key decides *)

Lemma foldl_add_entry_keep (lines : list string) (m : gmap string string)
    (key : string) :
  Forall (fun line => forall value, DotEnv.entry line <> Some (key, value))
    lines ->
  foldl DotEnv.add_entry m lines !! key = m !! key.
Proof.
  intros Hlines. revert m.
  induction Hlines as [|line lines Hline _ IH]; intros m; [done|].
  simpl. rewrite IH. unfold DotEnv.add_entry.
  destruct (DotEnv.entry line) as [[k v]|] eqn:Hentry; [|done].
  rewrite lookup_insert_ne; [done|]. intros ->. by apply (Hline v).
Qed.

(** X14. In file mode, when a line of the file gives an entry for a key
    and no later line gives one for the same key, the mapping that
    [load_env_variables] returns holds the value of that line under the
    key, whatever the earlier lines say. *)
Theorem load_env_variables_last_line_wins (w : world) (tr : trace)
    (content : string) (earlier later : list string)
    (line key value : string) :
  github_actions w = false ->
  files w (env_file w) = Present (Return content) ->
  PyStr.readlines content = earlier ++ line :: later ->
  DotEnv.entry line = Some (key, value) ->
  Forall (fun line' => forall value', DotEnv.entry line' <> Some (key, value'))
    later ->
  exists cfg, fst (load_env_variables w tr) = Return (Some cfg)
              /\ cfg !! key = Some value.
Proof.
  intros Hci Hfile Hlines Hentry Hlater.
  rewrite (load_env_variables_file w tr content Hci Hfile).
  eexists. split; [reflexivity|].
  rewrite <- foldl_add_entry_mapping, Hlines, foldl_app. simpl.
  rewrite foldl_add_entry_keep by exact Hlater.
  unfold DotEnv.add_entry at 1. rewrite Hentry. apply lookup_insert_eq.
Qed.

Lemma load_env_variables_last_line_wins_witness :
  exists cfg,
    fst (load_env_variables (dotenv_world (Return ok_response)) start)
      = Return (Some cfg)
    /\ cfg !! "ADMIN_USERNAME" = Some "admin".
Proof.
  apply (load_env_variables_last_line_wins
           (dotenv_world (Return ok_response)) start dotenv_content
           (take 4 (PyStr.readlines dotenv_content))
           (drop 5 (PyStr.readlines dotenv_content))
           ("ADMIN_USERNAME=admin" +:+ String PyStr.LF EmptyString)).
  - reflexivity.
  - reflexivity.
  - vm_compute. reflexivity.
  - vm_compute. reflexivity.
  - vm_compute. repeat constructor; intros value'; discriminate.
Defined.

(** ** X15: the line ends of Windows *)

Lemma readlines_to_crlf (content : string) :
  PyStr.contains PyStr.CR content = false ->
  PyStr.readlines (to_crlf content) = PyStr.readlines content.
Proof.
  unfold PyStr.contains.
  induction content as [|c content IH]; [done|].
  intros Hmem. change (Ascii.eqb PyStr.CR c || PyStr.mem PyStr.CR content
                       = false) in Hmem.
  apply orb_false_elim in Hmem as [Hc Hcontent].
  rewrite Ascii.eqb_sym in Hc. specialize (IH Hcontent).
  change (to_crlf (String c content)) with
    (if Ascii.eqb c PyStr.LF
     then String PyStr.CR (String PyStr.LF (to_crlf content))
     else String c (to_crlf content)).
  destruct (Ascii.eqb c PyStr.LF) eqn:Hlf.
  - change (PyStr.readlines (String PyStr.CR (String PyStr.LF (to_crlf content))))
      with (String PyStr.LF EmptyString :: PyStr.readlines (to_crlf content)).
    rewrite IH. simpl. by rewrite Hlf.
  - simpl. by rewrite Hlf, Hc, IH.
Qed.

(** X15. In file mode a file without carriage returns and the same file
    with every line feed turned into carriage return, line feed give the
    same result of [load_env_variables], mapping and log. *)
Theorem load_env_variables_crlf (w w' : world) (tr : trace) (content : string) :
  github_actions w = false ->
  github_actions w' = false ->
  files w (env_file w) = Present (Return content) ->
  files w' (env_file w') = Present (Return (to_crlf content)) ->
  PyStr.contains PyStr.CR content = false ->
  load_env_variables w' tr = load_env_variables w tr.
Proof.
  intros Hci Hci' Hfile Hfile' Hcr.
  rewrite (load_env_variables_file w tr content Hci Hfile).
  rewrite (load_env_variables_file w' tr _ Hci' Hfile').
  unfold DotEnv.mapping. by rewrite readlines_to_crlf.
Qed.

Lemma load_env_variables_crlf_witness :
  load_env_variables
    (example_world ∅ (Present (Return (to_crlf dotenv_unix)))
       (Return ok_response)) start
  = load_env_variables
      (example_world ∅ (Present (Return dotenv_unix)) (Return ok_response))
      start.
Proof.
  apply (load_env_variables_crlf
           (example_world ∅ (Present (Return dotenv_unix)) (Return ok_response))
           (example_world ∅ (Present (Return (to_crlf dotenv_unix)))
              (Return ok_response))
           start dotenv_unix); vm_compute; reflexivity.
Defined.

(** ** What [main] does with the outcome of the trigger *)

Lemma start_banner_quiet (w : world) : quiet (start_banner w).
Proof. by intros tr. Qed.

Lemma finish_banner_quiet (w : world) : quiet (finish_banner w).
Proof. by intros tr. Qed.

(** What [main] does after the first banner, by the outcome of the
    trigger. *)
Lemma main_body_run (w : world) (trigger : M bool) (tr : trace) :
  main_body w trigger tr =
    match trigger (snd (start_banner w tr)) with
    | (Return true, tr1) =>
        (Return 0,
         snd (finish_banner w
                {| log := log tr1 ++
                     [(INFO, [Lit "✅ Scheduled task execution completed successfully"])];
                   requests := requests tr1 |}))
    | (Return false, tr1) =>
        (Return 1,
         snd (finish_banner w
                {| log := log tr1 ++
                     [(ERROR, [Lit "❌ Scheduled task execution failed"])];
                   requests := requests tr1 |}))
    | (Raise e, tr1) =>
        if isinstance e KeyboardInterrupt then
          (Return 1,
           snd (finish_banner w
                  {| log := log tr1 ++
                       [(INFO, [Lit "⏹️ Interrupted by user"])];
                     requests := requests tr1 |}))
        else if isinstance e Exception then
          (Return 1,
           snd (finish_banner w
                  {| log := log tr1 ++
                       [(ERROR, [Lit "💥 Fatal error: "; FExn e])];
                     requests := requests tr1 |}))
        else (Raise e, tr1)
    end.
Proof.
  unfold main_body, bind at 1.
  destruct (start_banner w tr) as [o0 tr0] eqn:Hbanner.
  pose proof (start_banner_returns w tr) as Hret.
  rewrite Hbanner in Hret. cbn [fst snd] in *. subst o0.
  unfold bind at 1, try_except, bind at 1.
  destruct (trigger tr0) as [[[|]|e] tr1]; [done|done|].
  unfold main_handlers. simpl dispatch.
  destruct (isinstance e KeyboardInterrupt); [done|].
  by destruct (isinstance e Exception).
Qed.

(** ** X16: an interruption during the request *)

Lemma keyboard_interrupt_classes (e : exn) :
  exn_mro e = [KeyboardInterrupt; BaseException] ->
  isinstance e KeyboardInterrupt = true
  /\ isinstance e Exception = false
  /\ isinstance e RequestException = false
  /\ isinstance e ConnectionError = false
  /\ isinstance e Timeout = false.
Proof. unfold isinstance. intros ->. by vm_compute. Qed.

(** X16. With a usable configuration, when the POST is cut short by a
    [KeyboardInterrupt], no clause of [trigger_scheduled_tasks] catches
    it; [main] catches it, logs that the user interrupted the run, logs
    the banner of the end and exits with code 1. The request was
    issued. *)
Theorem main_interrupted (w : world) (tr tr1 : trace)
    (url user password : string) (e : exn) :
  configured w (snd (start_banner w tr)) tr1 url user password ->
  remote w (post_arguments (endpoint_url url) (Some user) (Some password))
    = Raise e ->
  exn_mro e = [KeyboardInterrupt; BaseException] ->
  main w tr =
    (Return 1,
     snd (finish_banner w
            {| log := log (posted (snd (start_banner w tr)) tr1 url user
                             password) ++
                 [(INFO, [Lit "⏹️ Interrupted by user"])];
               requests := requests tr ++
                 [post_arguments (endpoint_url url) (Some user)
                    (Some password)] |})).
Proof.
  intros Hconfigured Hremote Hmro.
  destruct (keyboard_interrupt_classes e Hmro) as (Hki & He & Hr & Hc & Ht).
  unfold main. rewrite main_body_run.
  rewrite (trigger_configured _ _ _ _ _ _ Hconfigured), Hremote.
  unfold trigger_handlers. simpl dispatch. rewrite Ht, Hc, Hr, He.
  unfold raise. by rewrite Hki.
Qed.

Lemma main_interrupted_witness :
  fst (main (dotenv_world (Raise keyboard_interrupt)) start) = Return 1.
Proof.
  rewrite (main_interrupted (dotenv_world (Raise keyboard_interrupt)) start
             (snd (load_env_variables (dotenv_world (Raise keyboard_interrupt))
                     (snd (start_banner
                             (dotenv_world (Raise keyboard_interrupt)) start))))
             "http://h/" "admin" "s=1" keyboard_interrupt).
  - reflexivity.
  - eexists. repeat split; vm_compute; reflexivity.
  - reflexivity.
  - reflexivity.
Defined.

(** ** X17: exit code 0 *)

(** X17. When [main] exits with code 0, it issued one request, and the
    answer to that request was a response of status 200 whose body is a
    JSON object. *)
Theorem main_exit_zero_only_on_success (w : world) (tr : trace) :
  fst (main w tr) = Return 0 ->
  exists req r items,
    requests (snd (main w tr)) = requests tr ++ [req]
    /\ remote w req = Return r
    /\ status_code r = 200
    /\ json_body r = Return (JDict items).
Proof.
  unfold main. rewrite main_body_run.
  destruct (trigger_scheduled_tasks w (snd (start_banner w tr)))
    as [[[|]|e] tr1] eqn:Hrun.
  - intros _.
    pose proof (trigger_true_cases w _ _ Hrun)
      as (tr0 & url & user & password & r & items & Hconfigured & Hremote
          & Hstatus & Hjson).
    exists (post_arguments (endpoint_url url) (Some user) (Some password)),
      r, items.
    split; [|done]. cbn [snd].
    rewrite finish_banner_quiet. cbn [requests].
    pose proof (trigger_configured_requests _ _ _ _ _ _ Hconfigured) as Hreq.
    rewrite Hrun in Hreq. cbn [snd] in Hreq.
    by rewrite Hreq, start_banner_quiet.
  - done.
  - destruct (isinstance e KeyboardInterrupt); [done|].
    by destruct (isinstance e Exception).
Qed.

Lemma main_exit_zero_only_on_success_witness :
  exists req r items,
    requests (snd (main (dotenv_world (Return ok_response)) start))
      = requests start ++ [req]
    /\ remote (dotenv_world (Return ok_response)) req = Return r
    /\ status_code r = 200
    /\ json_body r = Return (JDict items).
Proof.
  apply (main_exit_zero_only_on_success (dotenv_world (Return ok_response))
           start).
  vm_compute. reflexivity.
Defined.

(** ** X18: what leaves [main] *)

(** X18. An exception that leaves [main] was raised by
    [trigger_scheduled_tasks] and is neither a [KeyboardInterrupt] nor
    an instance of [Exception]; in that run the banner of the end is not
    logged. *)
Theorem main_raises_no_error (w : world) (tr tr' : trace) (e : exn) :
  main w tr = (Raise e, tr') ->
  trigger_scheduled_tasks w (snd (start_banner w tr)) = (Raise e, tr')
  /\ isinstance e KeyboardInterrupt = false
  /\ isinstance e Exception = false.
Proof.
  unfold main. rewrite main_body_run.
  destruct (trigger_scheduled_tasks w (snd (start_banner w tr)))
    as [[[|]|e0] tr1]; [done|done|].
  destruct (isinstance e0 KeyboardInterrupt) eqn:Hki; [done|].
  destruct (isinstance e0 Exception) eqn:He; [done|].
  by intros [= <- <-].
Qed.

Lemma main_raises_no_error_witness :
  trigger_scheduled_tasks (dotenv_world (Raise system_exit))
    (snd (start_banner (dotenv_world (Raise system_exit)) start))
  = (Raise system_exit,
     snd (main (dotenv_world (Raise system_exit)) start))
  /\ isinstance system_exit KeyboardInterrupt = false
  /\ isinstance system_exit Exception = false.
Proof.
  apply (main_raises_no_error (dotenv_world (Raise system_exit)) start).
  vm_compute. reflexivity.
Defined.

(** ** X19: a run without a [.env] file *)

(** X19. Outside CI mode, when there is no [.env] file beside the
    script, [main] exits with code 1 and issues no request. *)
Theorem main_missing_file (w : world) (tr : trace) :
  github_actions w = false ->
  files w (env_file w) = Absent ->
  fst (main w tr) = Return 1
  /\ requests (snd (main w tr)) = requests tr.
Proof.
  intros Hci Hfile. unfold main. rewrite main_body_run.
  destruct (load_env_variables w (snd (start_banner w tr)))
    as [o tr1] eqn:Hload.
  pose proof (load_env_variables_absent w (snd (start_banner w tr)) Hci Hfile)
    as Hnone.
  rewrite Hload in Hnone. cbn [fst] in Hnone. subst o.
  rewrite (trigger_config_falsy w _ tr1 None Hload) by done.
  split; [done|]. cbn [snd].
  rewrite finish_banner_quiet. cbn [requests].
  pose proof (load_env_variables_quiet w (snd (start_banner w tr))) as Hq.
  rewrite Hload in Hq. cbn [snd] in Hq.
  by rewrite Hq, start_banner_quiet.
Qed.

Lemma main_missing_file_witness :
  fst (main (example_world ∅ Absent (Return ok_response)) start) = Return 1
  /\ requests (snd (main (example_world ∅ Absent (Return ok_response)) start))
     = requests start.
Proof.
  apply (main_missing_file (example_world ∅ Absent (Return ok_response))
           start); reflexivity.
Defined.

(** ** The log only grows *)

Section LogFacts.

Lemma appends_ret {A} (a : A) : appends (ret a).
Proof. intros tr. exists []. by rewrite app_nil_r. Qed.

Lemma appends_raise {A} (e : exn) : appends (@raise A e).
Proof. intros tr. exists []. by rewrite app_nil_r. Qed.

Lemma appends_lift {A} (o : outcome A) : appends (lift o).
Proof. intros tr. exists []. by rewrite app_nil_r. Qed.

Lemma appends_logger (lvl : level) (message : list fragment) :
  appends (logger lvl message).
Proof. intros tr. by eexists. Qed.

Lemma appends_requests_post (w : world) (req : request) :
  appends (requests_post w req).
Proof. intros tr. exists []. by rewrite app_nil_r. Qed.

Lemma appends_bind {A B} (c : M A) (k : A -> M B) :
  appends c -> (forall a, appends (k a)) -> appends (bind c k).
Proof.
  intros Hc Hk tr. unfold bind. destruct (Hc tr) as [entries Hentries].
  destruct (c tr) as [[a|e] tr']; cbn [snd] in *; [|by eexists].
  destruct (Hk a tr') as [entries' Hentries'].
  exists (entries ++ entries'). by rewrite Hentries', Hentries, app_assoc.
Qed.

Lemma appends_if {A} (b : bool) (c1 c2 : M A) :
  appends c1 -> appends c2 -> appends (if b then c1 else c2).
Proof. by destruct b. Qed.

Lemma appends_dispatch {A} (handlers : list (pyclass * (exn -> M A)))
    (e : exn) :
  Forall (fun h => forall e', appends (h.2 e')) handlers ->
  appends (dispatch handlers e).
Proof.
  induction 1 as [|[cls h] handlers Hh _ IH]; simpl.
  - apply appends_raise.
  - destruct (isinstance e cls); [apply Hh|apply IH].
Qed.

Lemma appends_try_except {A} (body : M A)
    (handlers : list (pyclass * (exn -> M A))) :
  appends body ->
  Forall (fun h => forall e', appends (h.2 e')) handlers ->
  appends (try_except body handlers).
Proof.
  intros Hb Hh tr. unfold try_except. destruct (Hb tr) as [entries Hentries].
  destruct (body tr) as [[a|e] tr']; cbn [snd] in *; [by eexists|].
  destruct (appends_dispatch handlers e Hh tr') as [entries' Hentries'].
  exists (entries ++ entries'). by rewrite Hentries', Hentries, app_assoc.
Qed.

End LogFacts.

Lemma load_env_variables_appends (w : world) : appends (load_env_variables w).
Proof.
  intros tr. destruct (github_actions w) eqn:Hci.
  - rewrite (load_env_variables_ci w tr Hci). cbv zeta.
    case_bool_decide; by eexists.
  - unfold load_env_variables. rewrite Hci.
    destruct (files w (env_file w)) as [|[content|e]] eqn:Hfile.
    + unfold bind, logger, ret. cbn [snd log]. eexists.
      by rewrite <- !app_assoc.
    + unfold try_except, bind, lift.
      rewrite for_each_parse_line. by eexists.
    + unfold try_except, bind, lift. simpl.
      destruct (isinstance e Exception); [by eexists|].
      exists []. by rewrite app_nil_r.
Qed.

Lemma check_response_appends (r : response) : appends (check_response r).
Proof.
  unfold check_response.
  repeat first
    [ apply appends_if
    | apply appends_bind; [|intros ?]
    | apply appends_lift | apply appends_logger | apply appends_ret ].
Qed.

Lemma trigger_handlers_appends :
  Forall (fun h : pyclass * (exn -> M bool) => forall e', appends (h.2 e'))
    trigger_handlers.
Proof.
  unfold trigger_handlers.
  repeat constructor; intros e'; simpl;
    (apply appends_bind; [apply appends_logger|intros _; apply appends_ret]).
Qed.

Lemma trigger_scheduled_tasks_appends (w : world) :
  appends (trigger_scheduled_tasks w).
Proof.
  apply appends_try_except; [|apply trigger_handlers_appends].
  unfold trigger_body.
  apply appends_bind; [apply load_env_variables_appends|intros env_vars].
  apply appends_if.
  - apply appends_bind; [apply appends_logger|intros _; apply appends_ret].
  - unfold config_get. destruct env_vars as [cfg|].
    + repeat (apply appends_bind; [apply appends_ret|intros ?]).
      apply appends_if.
      * apply appends_bind; [apply appends_logger|intros _; apply appends_ret].
      * apply appends_bind.
        { unfold value_rstrip. destruct a; [apply appends_ret|apply appends_raise]. }
        intros base.
        apply appends_bind; [apply appends_logger|intros _].
        apply appends_bind; [apply appends_requests_post|intros response].
        apply check_response_appends.
    + intros tr. exists []. by rewrite app_nil_r.
Qed.

(** ** X20: the log of a run *)

(** X20. When [main] exits with a code, the log is the log from before
    the run, then the three lines of the banner of the start, then what
    the run logged, then the three lines of the banner of the end:
    nothing logged earlier is lost or changed. *)
Theorem main_log_between_banners (w : world) (tr : trace) (code : Z) :
  fst (main w tr) = Return code ->
  exists entries,
    log (snd (main w tr)) =
      log tr ++
      [(INFO, [FStr (PyStr.repeat_str "=" 60)]);
       (INFO, [Lit "🚀 Starting scheduled task runner at ";
               FStr (now_at_start w)]);
       (INFO, [FStr (PyStr.repeat_str "=" 60)])] ++
      entries ++
      [(INFO, [FStr (PyStr.repeat_str "=" 60)]);
       (INFO, [Lit "🏁 Scheduled task runner finished at ";
               FStr (now_at_finish w)]);
       (INFO, [FStr (PyStr.repeat_str "=" 60)])].
Proof.
  unfold main. rewrite main_body_run.
  destruct (trigger_scheduled_tasks_appends w (snd (start_banner w tr)))
    as [entries Hentries].
  assert (forall tr1 entry,
            log tr1 = log (snd (start_banner w tr)) ++ entries ->
            exists entries',
              log (snd (finish_banner w
                          {| log := log tr1 ++ [entry];
                             requests := requests tr1 |})) =
                log tr ++
                [(INFO, [FStr (PyStr.repeat_str "=" 60)]);
                 (INFO, [Lit "🚀 Starting scheduled task runner at ";
                         FStr (now_at_start w)]);
                 (INFO, [FStr (PyStr.repeat_str "=" 60)])] ++
                entries' ++
                [(INFO, [FStr (PyStr.repeat_str "=" 60)]);
                 (INFO, [Lit "🏁 Scheduled task runner finished at ";
                         FStr (now_at_finish w)]);
                 (INFO, [FStr (PyStr.repeat_str "=" 60)])]) as Hshape.
  { intros tr1 entry Hlog. exists (entries ++ [entry]).
    unfold finish_banner, start_banner, bind, logger in *.
    cbn [snd log requests] in *. rewrite Hlog.
    by rewrite <- !app_assoc. }
  destruct (trigger_scheduled_tasks w (snd (start_banner w tr)))
    as [[[|]|e] tr1]; cbn [snd] in Hentries.
  - intros _. by apply Hshape.
  - intros _. by apply Hshape.
  - destruct (isinstance e KeyboardInterrupt); [intros _; by apply Hshape|].
    destruct (isinstance e Exception); [intros _; by apply Hshape|done].
Qed.

Lemma main_log_between_banners_witness :
  exists entries,
    log (snd (main (example_world ∅ Absent (Return ok_response)) start)) =
      log start ++
      [(INFO, [FStr (PyStr.repeat_str "=" 60)]);
       (INFO, [Lit "🚀 Starting scheduled task runner at ";
               FStr (now_at_start
                       (example_world ∅ Absent (Return ok_response)))]);
       (INFO, [FStr (PyStr.repeat_str "=" 60)])] ++
      entries ++
      [(INFO, [FStr (PyStr.repeat_str "=" 60)]);
       (INFO, [Lit "🏁 Scheduled task runner finished at ";
               FStr (now_at_finish
                       (example_world ∅ Absent (Return ok_response)))]);
       (INFO, [FStr (PyStr.repeat_str "=" 60)])].
Proof.
  apply (main_log_between_banners
           (example_world ∅ Absent (Return ok_response)) start 1).
  vm_compute. reflexivity.
Defined.
